(** * Resolution of a MAX model configuration

    A shallow embedding of [MAXModelConfig] from
    [src/max/pipelines/max_config.py]: weight-path normalisation in
    [resolve], inference and validation of the quantization encoding,
    default weight files, the KV cache strategy and the final check of
    the weight files.

    Python objects are mutated in place and exceptions leave the
    mutations done so far: every method is a function from the
    configuration to an outcome that carries the configuration as it is
    when the method returns or raises. *)

From Stdlib Require Import String Ascii List Bool ZArith Lia.
Import ListNotations.
Open Scope string_scope.

(** ** Python strings and [pathlib] paths

    Strings are byte strings and [lower] acts on ASCII letters.  A
    [Path] object is represented by its [str()] form, which is in
    [pathlib]'s normal form; [Path] builds it from a string as
    [PurePosixPath] does. *)
Module PyStr.

(** [c.lower()] on one ASCII character. *)
Definition lower_ascii (c : ascii) : ascii :=
  let n := nat_of_ascii c in
  if (65 <=? n)%nat && (n <=? 90)%nat then ascii_of_nat (n + 32) else c.

(** [s.lower()]. *)
Fixpoint lower (s : string) : string :=
  match s with
  | EmptyString => EmptyString
  | String c r => String (lower_ascii c) (lower r)
  end.

(** [s.startswith(p)]. *)
Fixpoint startswith (p s : string) : bool :=
  match p, s with
  | EmptyString, _ => true
  | String a p', String b s' => Ascii.eqb a b && startswith p' s'
  | String _ _, EmptyString => false
  end.

(** [sub in s]. *)
Fixpoint contains (sub s : string) : bool :=
  startswith sub s ||
  match s with
  | EmptyString => false
  | String _ r => contains sub r
  end.

(** [s.split(sep)] for a one-character separator: never empty, and
    [''.split('/') = ['']]. *)
Fixpoint split (sep : ascii) (s : string) : list string :=
  match s with
  | EmptyString => [EmptyString]
  | String c r =>
      if Ascii.eqb c sep then EmptyString :: split sep r
      else match split sep r with
           | [] => [String c EmptyString]
           | h :: t => String c h :: t
           end
  end.

(** [sep.join(l)]. *)
Fixpoint join (sep : string) (l : list string) : string :=
  match l with
  | [] => EmptyString
  | [x] => x
  | x :: r => x ++ sep ++ join sep r
  end.

(** [s.rfind(c)], [None] for Python's [-1]. *)
Fixpoint rfind (c : ascii) (s : string) : option nat :=
  match s with
  | EmptyString => None
  | String a r =>
      match rfind c r with
      | Some i => Some (S i)
      | None => if Ascii.eqb a c then Some 0%nat else None
      end
  end.

(** [s[i:]]. *)
Fixpoint drop (i : nat) (s : string) : string :=
  match i, s with
  | O, _ => s
  | S i', String _ r => drop i' r
  | S _, EmptyString => EmptyString
  end.

(** [PurePath.name]: the last component. *)
Definition name (p : string) : string := last (split "/" p) EmptyString.

(** [PurePath.suffix]: [name[i:]] where [i = name.rfind('.')], when
    [0 < i < len(name) - 1], and [''] otherwise. *)
Definition suffix (p : string) : string :=
  let n := name p in
  match rfind "." n with
  | Some i =>
      if (0 <? i)%nat && (i <? String.length n - 1)%nat then drop i n
      else EmptyString
  | None => EmptyString
  end.

(** [str(Path(s))] on POSIX: the root is ["//"] for exactly two leading
    separators and ["/"] for any other number of them; empty and ["."]
    components are dropped; the empty path is ["."]. *)
Definition Path (s : string) : string :=
  let parts :=
    filter (fun x => negb (x =? "") && negb (x =? ".")) (split "/" s) in
  let root :=
    if startswith "//" s && negb (startswith "///" s) then "//"
    else if startswith "/" s then "/"
    else "" in
  match root, parts with
  | EmptyString, [] => "."
  | _, _ => root ++ join "/" parts
  end.

(** Truth value of a [str]. *)
Definition truthy (s : string) : bool :=
  match s with EmptyString => false | _ => true end.

End PyStr.

(** ** Enumerations of the collaborating modules *)

(** Modelled from the spec: [SupportedEncoding] of
    [max.pipelines.config_enums], whose declaration is not among the
    sources.  The code names [float32], [bfloat16] and [gptq], the spec
    the grouped quantization scheme [q4_k].  It is a string enumeration
    with non-empty values, so every member is truthy and
    [not self.quantization_encoding] tests for [None]. *)
Inductive SupportedEncoding : Type :=
  | float32 | bfloat16 | q4_0 | q4_k | q6_k | gptq.

Definition SupportedEncoding_eqb (a b : SupportedEncoding) : bool :=
  match a, b with
  | float32, float32 | bfloat16, bfloat16 | q4_0, q4_0
  | q4_k, q4_k | q6_k, q6_k | gptq, gptq => true
  | _, _ => false
  end.

(** [WeightsFormat] of [max.graph.weights]. *)
Inductive WeightsFormat : Type := gguf | safetensors | pytorch.

Definition WeightsFormat_eqb (a b : WeightsFormat) : bool :=
  match a, b with
  | gguf, gguf | safetensors, safetensors | pytorch, pytorch => true
  | _, _ => false
  end.

(** [RepoType] of [max.pipelines.config_enums]. *)
Inductive RepoType : Type := online | local.

(** [KVCacheStrategy] of [max.pipelines.kv_cache]. *)
Inductive KVCacheStrategy : Type := MODEL_DEFAULT | NAIVE | CONTINUOUS | PAGED.

Definition KVCacheStrategy_eqb (a b : KVCacheStrategy) : bool :=
  match a, b with
  | MODEL_DEFAULT, MODEL_DEFAULT | NAIVE, NAIVE
  | CONTINUOUS, CONTINUOUS | PAGED, PAGED => true
  | _, _ => false
  end.

(** [x in l] for a list of strategies. *)
Definition strategy_in (x : KVCacheStrategy) (l : list KVCacheStrategy) : bool :=
  existsb (KVCacheStrategy_eqb x) l.

(** [x in l] for a list of encodings. *)
Definition encoding_in (x : SupportedEncoding) (l : list SupportedEncoding) : bool :=
  existsb (SupportedEncoding_eqb x) l.

(** [DeviceSpec] of [max.driver]. *)
Record DeviceSpec : Type := {
  id : Z;
  device_type : string
}.

(** The graph-level encoding and [QuantizationConfig] of
    [max.graph.quantization], both opaque here. *)
Record QuantizationEncoding : Type := { graph_encoding_name : string }.

Record QuantizationConfig : Type := {
  quant_method : string;
  bits : Z;
  group_size : Z;
  desc_act : bool;
  sym : bool
}.

(** What [AutoConfig.from_pretrained] is read for. *)
Record HFConfig : Type := {
  torch_dtype_is_float16 : bool;
  quantization_config : QuantizationConfig
}.

(** Result of [huggingface_hub.try_to_load_from_cache]: a path, the
    sentinel of a cached absence, or [None]. *)
Inductive CacheResult : Type :=
  | CachedPath (p : string)
  | CachedNoExist
  | CacheMiss.

(** ** Exceptions and log records *)

Inductive ExcKind : Type :=
  | ValueError | FileNotFoundError | RuntimeError | AssertionError | IndexError.

(** The message of each [raise], with the values it interpolates. *)
Inductive Msg : Type :=
  | DeviceSpecsDoNotExist (requested available : list DeviceSpec)
  | WeightPathNotStrOrPath
  | UnableToDeriveModelPath
  | ModelPathMustBeProvided
  | NotAValidRepository (model : string)
  | CannotConvertNoneEncoding
  | InconsistentEncoding (path : string) (file_encoding given : SupportedEncoding)
  | LocalSafetensorsNeedsEncoding
  | EncodingCannotBeInferred (path : string)
  | EncodingNotCompatible (enc : SupportedEncoding) (dev : string)
                          (available : list SupportedEncoding)
  | NoWeightsInGGUF (enc : SupportedEncoding) (repo : string)
  | NoWeights (enc : SupportedEncoding)
  | NotInLocalRepository (path repo : string)
  | NotOnHuggingFace (path repo : string)
  | UnexpectedRepositoryType
  | CachedNonExistent (path : string)
  | GPTQScalesUnsupported
  | EncodingMustBeSet
  | WeightPathMustBeProvided
  | ListIndexOutOfRange
  | FromCollaborator (what : string).

Record Exc : Type := { kind : ExcKind; msg : Msg }.

Definition raise_ (k : ExcKind) (m : Msg) : Exc := {| kind := k; msg := m |}.

(** What is passed to [logger.debug] and [logger.warning]. *)
Inductive LogMsg : Type :=
  | EncodingInferred (enc : SupportedEncoding)
  | RepoOnlyHas (enc : SupportedEncoding)
  | UsingDefaultEncoding (enc : SupportedEncoding)
  | DefaultStrategyEnabled (strategy : KVCacheStrategy)
  | StrategyNotSupported (requested : KVCacheStrategy) (enc : SupportedEncoding)
                         (used : KVCacheStrategy)
  | UnexpectedRepositoryTypeSeen.

Inductive LogRecord : Type :=
  | Debug (m : LogMsg)
  | Warning (m : LogMsg).

(** Outcome of a call: it returns a value or raises.  A raised
    exception aborts the resolution, and the configuration is not used
    after it. *)
Inductive Outcome (A : Type) : Type :=
  | Returned (a : A)
  | Raised (e : Exc).
Arguments Returned {A} a.
Arguments Raised {A} e.

(** ** The configuration object *)

(** [KVCacheConfig]; the two float fields are never read by the
    resolution and are left out. *)
Record KVCacheConfig : Type := {
  cache_strategy : KVCacheStrategy;
  kv_cache_page_size : Z;
  enable_prefix_caching : bool;
  enable_kvcache_swapping_to_host : bool;
  _available_cache_memory : option Z
}.

(** Modelled from the spec: [HuggingFaceRepo] of [max.pipelines.hf_utils],
    which is not among the sources: a repository is [{repoId, repoType,
    revision}], classified from its identifier as local or online.  The
    code also provides for a classification that is neither ([None]
    here). *)
Record HuggingFaceRepo : Type := {
  repo_id : string;
  revision : string;
  repo_trust_remote_code : bool;
  repo_type : option RepoType
}.

(** An element of the user's [weight_path]: a [str], a [Path], or a
    value of another type. *)
Inductive Entry : Type :=
  | EStr (s : string)
  | EPath (p : string)
  | EOther.

(** The user's [weight_path]: a list, a tuple, or a single value. *)
Inductive WeightPathArg : Type :=
  | ArgList (l : list Entry)
  | ArgTuple (l : list Entry)
  | ArgSingle (e : Entry).

(** [MAXModelConfig].  [W] is the type of [weight_path]: the user's
    value before [resolve], a list of paths after it (the declared type
    [list[Path]]).  [huggingface_weights_repo_cache] is the slot of the
    [cached_property]; [logged] collects the records sent to the module's
    logger, latest first. *)
Record MAXModelConfig (W : Type) : Type := mkConfig {
  model_path : string;
  weight_path : W;
  quantization_encoding : option SupportedEncoding;
  huggingface_revision : string;
  trust_remote_code : bool;
  device_specs : list DeviceSpec;
  force_download : bool;
  _weights_repo_id : option string;
  _quant_config : option QuantizationConfig;
  _kv_cache_config : KVCacheConfig;
  huggingface_weights_repo_cache : option HuggingFaceRepo;
  logged : list LogRecord
}.
Arguments mkConfig {W}.
Arguments model_path {W}.
Arguments weight_path {W}.
Arguments quantization_encoding {W}.
Arguments huggingface_revision {W}.
Arguments trust_remote_code {W}.
Arguments device_specs {W}.
Arguments force_download {W}.
Arguments _weights_repo_id {W}.
Arguments _quant_config {W}.
Arguments _kv_cache_config {W}.
Arguments huggingface_weights_repo_cache {W}.
Arguments logged {W}.

Definition Config : Type := MAXModelConfig (list string).

(** ** The collaborators

    Everything the methods ask of the file system, the Hugging Face hub,
    the device driver and the modules that are not among the sources. *)
Record World : Type := {
  (* max.driver *)
  devices_exist : list DeviceSpec -> bool;
  scan_available_devices : list DeviceSpec;
  (* pathlib and os.path *)
  is_file : string -> bool;
  path_exists : string -> bool;
  path_resolve : string -> string;
  (* huggingface_hub and transformers *)
  hub_file_exists : string -> string -> bool;
  repo_exists_with_retry : string -> bool;
  try_to_load_from_cache : string -> string -> string -> CacheResult;
  from_pretrained : string -> bool -> string -> Outcome HFConfig;
  (* max.graph.weights: [None] for its ValueError *)
  weights_format : list string -> option WeightsFormat;
  (* SupportedEncoding and _ALTERNATE_ENCODINGS of config_enums *)
  parse_from_file_name : string -> option SupportedEncoding;
  supported_on : SupportedEncoding -> DeviceSpec -> bool;
  graph_encoding : SupportedEncoding -> option QuantizationEncoding;
  _ALTERNATE_ENCODINGS : SupportedEncoding -> option SupportedEncoding;
  (* HuggingFaceRepo *)
  classify : string -> option RepoType;
  file_exists : HuggingFaceRepo -> string -> bool;
  encoding_for_file : HuggingFaceRepo -> string -> option SupportedEncoding;
  supported_encodings : HuggingFaceRepo -> list SupportedEncoding;
  files_for_encoding : HuggingFaceRepo -> SupportedEncoding ->
                       option SupportedEncoding ->
                       list (WeightsFormat * list string)
}.

(** ** Methods as state and exception passing *)

Definition M (A : Type) : Type := Config -> Outcome (A * Config).

Definition ret {A : Type} (a : A) : M A := fun c => Returned (a, c).

Definition bind {A B : Type} (m : M A) (k : A -> M B) : M B :=
  fun c => match m c with
           | Returned (a, c') => k a c'
           | Raised e => Raised e
           end.

Definition throw {A : Type} (k : ExcKind) (m : Msg) : M A :=
  fun _ => Raised (raise_ k m).

Definition get : M Config := fun c => Returned (c, c).

Definition modify (f : Config -> Config) : M unit := fun c => Returned (tt, f c).

Notation "x <- m ;; k" := (bind m (fun x => k))
  (at level 61, m at next level, right associativity).
Notation "m ;;; k" := (bind m (fun _ => k))
  (at level 61, right associativity).

Section Setters.
Context {W : Type}.

Definition set_quantization_encoding (v : option SupportedEncoding)
    (c : MAXModelConfig W) : MAXModelConfig W :=
  mkConfig (model_path c) (weight_path c) v (huggingface_revision c)
    (trust_remote_code c) (device_specs c) (force_download c)
    (_weights_repo_id c) (_quant_config c) (_kv_cache_config c)
    (huggingface_weights_repo_cache c) (logged c).

Definition set_weight_path (v : W) (c : MAXModelConfig W) : MAXModelConfig W :=
  mkConfig (model_path c) v (quantization_encoding c) (huggingface_revision c)
    (trust_remote_code c) (device_specs c) (force_download c)
    (_weights_repo_id c) (_quant_config c) (_kv_cache_config c)
    (huggingface_weights_repo_cache c) (logged c).

Definition set_quant_config (v : option QuantizationConfig)
    (c : MAXModelConfig W) : MAXModelConfig W :=
  mkConfig (model_path c) (weight_path c) (quantization_encoding c)
    (huggingface_revision c) (trust_remote_code c) (device_specs c)
    (force_download c) (_weights_repo_id c) v (_kv_cache_config c)
    (huggingface_weights_repo_cache c) (logged c).

Definition set_cache_strategy (v : KVCacheStrategy)
    (c : MAXModelConfig W) : MAXModelConfig W :=
  let k := _kv_cache_config c in
  mkConfig (model_path c) (weight_path c) (quantization_encoding c)
    (huggingface_revision c) (trust_remote_code c) (device_specs c)
    (force_download c) (_weights_repo_id c) (_quant_config c)
    {| cache_strategy := v;
       kv_cache_page_size := kv_cache_page_size k;
       enable_prefix_caching := enable_prefix_caching k;
       enable_kvcache_swapping_to_host := enable_kvcache_swapping_to_host k;
       _available_cache_memory := _available_cache_memory k |}
    (huggingface_weights_repo_cache c) (logged c).

Definition set_repo_cache (v : option HuggingFaceRepo)
    (c : MAXModelConfig W) : MAXModelConfig W :=
  mkConfig (model_path c) (weight_path c) (quantization_encoding c)
    (huggingface_revision c) (trust_remote_code c) (device_specs c)
    (force_download c) (_weights_repo_id c) (_quant_config c)
    (_kv_cache_config c) v (logged c).

Definition emit (r : LogRecord) (c : MAXModelConfig W) : MAXModelConfig W :=
  mkConfig (model_path c) (weight_path c) (quantization_encoding c)
    (huggingface_revision c) (trust_remote_code c) (device_specs c)
    (force_download c) (_weights_repo_id c) (_quant_config c)
    (_kv_cache_config c) (huggingface_weights_repo_cache c) (r :: logged c).
End Setters.

(** ** [MAXModelConfig.resolve] *)

Section Resolve.
Variable w : World.

(** Lines 215-218: a tuple becomes a list, another value that is not a
    list becomes a singleton list. *)
Definition as_list (a : WeightPathArg) : list Entry :=
  match a with
  | ArgList l => l
  | ArgTuple l => l
  | ArgSingle e => [e]
  end.

(** Lines 239-254: the path that looks like [repo_id/file_name].
    Returns the path that is appended and [_weights_repo_id]. *)
Definition split_repo_id (model : string) (rid : option string) (p : string)
    : Outcome (string * option string) :=
  let path_pieces := PyStr.split "/" p in
  match path_pieces with
  | [] => Returned (p, rid)
  | _ :: _ =>
      if (3 <=? length path_pieces)%nat then
        let repo_id := nth 0 path_pieces "" ++ "/" ++ nth 1 path_pieces "" in
        let file_name := PyStr.join "/" (skipn 2 path_pieces) in
        if negb (model =? "") && (repo_id =? model) then
          Returned (PyStr.Path file_name, rid)
        else if hub_file_exists w repo_id file_name then
          Returned (PyStr.Path file_name, Some repo_id)
        else Returned (p, rid)
      else if model =? "" then
        Raised (raise_ ValueError UnableToDeriveModelPath)
      else Returned (p, rid)
  end.

(** Lines 222-254: one turn of the loop.  A [str] is converted and goes
    straight to the splitting; only a value that already is a [Path]
    reaches the [is_file] test. *)
Definition normalize_entry (model : string) (rid : option string) (e : Entry)
    : Outcome (string * option string) :=
  match e with
  | EStr s => split_repo_id model rid (PyStr.Path s)
  | EPath p =>
      if is_file w p then Returned (p, rid)
      else split_repo_id model rid p
  | EOther => Raised (raise_ ValueError WeightPathNotStrOrPath)
  end.

(** Lines 219-254: the loop, with [weight_paths] and
    [_weights_repo_id]. *)
Fixpoint normalize (model : string) (rid : option string) (l : list Entry)
    : Outcome (list string * option string) :=
  match l with
  | [] => Returned ([], rid)
  | e :: rest =>
      match normalize_entry model rid e with
      | Raised x => Raised x
      | Returned (p, rid') =>
          match normalize model rid' rest with
          | Raised x => Raised x
          | Returned (ps, rid'') => Returned (p :: ps, rid'')
          end
      end
  end.

Definition resolve (c : MAXModelConfig WeightPathArg) : Outcome Config :=
  if negb (devices_exist w (device_specs c)) then
    Raised (raise_ ValueError
              (DeviceSpecsDoNotExist (device_specs c) (scan_available_devices w)))
  else
    let trust :=
      if PyStr.contains "replit" (PyStr.lower (model_path c)) then true
      else trust_remote_code c in
    match normalize (model_path c) (_weights_repo_id c) (as_list (weight_path c)) with
    | Raised x => Raised x
    | Returned (weight_paths, rid) =>
        let done (model : string) : Config :=
          mkConfig model weight_paths (quantization_encoding c)
            (huggingface_revision c) trust (device_specs c) (force_download c)
            rid (_quant_config c) (_kv_cache_config c)
            (huggingface_weights_repo_cache c) (logged c) in
        if (length weight_paths =? 0)%nat then
          if model_path c =? "" then
            Raised (raise_ ValueError ModelPathMustBeProvided)
          else if negb (path_exists w (model_path c))
                  && negb (repo_exists_with_retry w (model_path c)) then
            Raised (raise_ ValueError (NotAValidRepository (model_path c)))
          else Returned (done (model_path c))
        else
          match rid with
          | Some r => if model_path c =? "" then Returned (done r)
                      else Returned (done (model_path c))
          | None => Returned (done (model_path c))
          end
    end.

(** ** The accessors *)

(** The call [HuggingFaceRepo(repo_id=..., revision=...,
    trust_remote_code=...)]. *)
Definition new_weights_repo (c : Config) : HuggingFaceRepo :=
  let rid :=
    match _weights_repo_id c with
    | Some r => if PyStr.truthy r then r else model_path c
    | None => model_path c
    end in
  {| repo_id := rid;
     revision := huggingface_revision c;
     repo_trust_remote_code := trust_remote_code c;
     repo_type := classify w rid |}.

(** The [cached_property]: built on first access from the fields as
    they are then, and kept. *)
Definition huggingface_weights_repo : M HuggingFaceRepo :=
  fun c =>
    match huggingface_weights_repo_cache c with
    | Some r => Returned (r, c)
    | None =>
        let r := new_weights_repo c in
        Returned (r, set_repo_cache (Some r) c)
    end.

Definition graph_quantization_encoding : M (option QuantizationEncoding) :=
  c <- get ;;
  match quantization_encoding c with
  | None => throw ValueError CannotConvertNoneEncoding
  | Some e => ret (graph_encoding w e)
  end.

(** ** [validate_and_resolve_quantization_encoding_weight_path] *)

(** [_weights_format != WeightsFormat.pytorch], with [None] when
    [weights_format] raised its ValueError. *)
Definition not_pytorch (f : option WeightsFormat) : bool :=
  match f with
  | Some pytorch => false
  | _ => true
  end.

(** Lines 402-415. *)
Definition check_given_encoding (w0 : string) (given : SupportedEncoding) : M unit :=
  file_encoding <-
    (if path_exists w w0 then ret (parse_from_file_name w w0)
     else repo <- huggingface_weights_repo ;; ret (encoding_for_file w repo w0)) ;;
  match file_encoding with
  | Some fe =>
      if negb (SupportedEncoding_eqb fe given) then
        throw ValueError (InconsistentEncoding w0 fe given)
      else ret tt
  | None => ret tt
  end.

(** Lines 422-444. *)
Definition infer_encoding (w0 : string) : M unit :=
  if path_exists w w0 then
    if PyStr.suffix w0 =? ".safetensors" then
      throw ValueError LocalSafetensorsNeedsEncoding
    else
      match parse_from_file_name w w0 with
      | Some encoding =>
          modify (emit (Debug (EncodingInferred encoding))) ;;;
          modify (set_quantization_encoding (Some encoding))
      | None => ret tt
      end
  else
    repo <- huggingface_weights_repo ;;
    match encoding_for_file w repo w0 with
    | Some encoding =>
        modify (emit (Debug (EncodingInferred encoding))) ;;;
        modify (set_quantization_encoding (Some encoding))
    | None => throw ValueError (EncodingCannotBeInferred w0)
    end.

(** Lines 446-463. *)
Definition default_encoding_choice (default_encoding : SupportedEncoding) : M unit :=
  repo <- huggingface_weights_repo ;;
  let supported := supported_encodings w repo in
  match supported with
  | [only] =>
      modify (emit (Debug (RepoOnlyHas only))) ;;;
      modify (set_quantization_encoding (Some only))
  | _ =>
      c <- get ;;
      match device_specs c with
      | [] => throw IndexError ListIndexOutOfRange
      | d :: _ =>
          if negb (device_type d =? "cpu") && encoding_in bfloat16 supported then
            modify (set_quantization_encoding (Some bfloat16))
          else
            modify (emit (Debug (UsingDefaultEncoding default_encoding))) ;;;
            modify (set_quantization_encoding (Some default_encoding))
      end
  end.

Definition validate_and_resolve_quantization_encoding_weight_path
    (default_encoding : SupportedEncoding) : M unit :=
  c <- get ;;
  let _weights_format := weights_format w (weight_path c) in
  match quantization_encoding c with
  | Some given =>
      match weight_path c with
      | w0 :: _ =>
          if not_pytorch _weights_format then check_given_encoding w0 given
          else ret tt
      | [] => ret tt
      end
  | None =>
      match weight_path c with
      | w0 :: _ =>
          if not_pytorch _weights_format then infer_encoding w0
          else default_encoding_choice default_encoding
      | [] => default_encoding_choice default_encoding
      end
  end.
End Resolve.

(** ** [validate_and_resolve_with_set_quantization_encoding] *)

Section WithSetEncoding.
Variable w : World.

(** [d.get(k, [])] on a dict kept as its items in insertion order. *)
Fixpoint dict_get {K V : Type} (eqb : K -> K -> bool) (k : K)
    (d : list (K * list V)) : list V :=
  match d with
  | [] => []
  | (k', v) :: r => if eqb k k' then v else dict_get eqb k r
  end.

(** The loop of [_validate_quantization_encoding_device_compatibility]. *)
Fixpoint check_devices (enc : SupportedEncoding)
    (supported_encodings_list : list SupportedEncoding)
    (devices : list DeviceSpec) : M unit :=
  match devices with
  | [] => ret tt
  | device_spec :: rest =>
      if negb (supported_on w enc device_spec) then
        throw ValueError
          (EncodingNotCompatible enc (device_type device_spec)
             supported_encodings_list)
      else check_devices enc supported_encodings_list rest
  end.

Definition _validate_quantization_encoding_device_compatibility
    (supported_encodings_list : list SupportedEncoding) : M unit :=
  c <- get ;;
  match quantization_encoding c with
  | None => throw AssertionError EncodingMustBeSet
  | Some enc => check_devices enc supported_encodings_list (device_specs c)
  end.

Definition _finalize_encoding_config : M unit :=
  c <- get ;;
  match quantization_encoding c with
  | Some gptq =>
      match from_pretrained w (model_path c) (trust_remote_code c)
              (huggingface_revision c) with
      | Raised x => fun _ => Raised x
      | Returned hf_config =>
          if negb (torch_dtype_is_float16 hf_config) then
            throw ValueError GPTQScalesUnsupported
          else modify (set_quant_config (Some (quantization_config hf_config)))
      end
  | _ => ret tt
  end.

Definition _resolve_weight_path (default_weights_format : WeightsFormat) : M unit :=
  c <- get ;;
  match quantization_encoding c with
  | None => throw AssertionError EncodingMustBeSet
  | Some enc =>
      (match weight_path c with
       | [] =>
           let alternate_encoding := _ALTERNATE_ENCODINGS w enc in
           repo <- huggingface_weights_repo w ;;
           let weight_files := files_for_encoding w repo enc alternate_encoding in
           match dict_get WeightsFormat_eqb default_weights_format weight_files with
           | (_ :: _) as default_weight_files =>
               modify (set_weight_path default_weight_files)
           | [] =>
               match weight_files with
               | (_, files) :: _ => modify (set_weight_path files)
               | [] => ret tt
               end
           end
       | _ :: _ => ret tt
       end) ;;;
      c' <- get ;;
      match weight_path c' with
      | [] =>
          if negb (encoding_in enc [bfloat16; float32]) then
            repo <- huggingface_weights_repo w ;;
            throw ValueError (NoWeightsInGGUF enc (repo_id repo))
          else throw ValueError (NoWeights enc)
      | _ :: _ => ret tt
      end
  end.

Definition _resolve_kv_cache_strategy
    (supported_encodings : list (SupportedEncoding * list KVCacheStrategy))
    : M unit :=
  c <- get ;;
  match quantization_encoding c with
  | None => throw AssertionError EncodingMustBeSet
  | Some enc =>
      let supported_cache_strategies :=
        dict_get SupportedEncoding_eqb enc supported_encodings in
      let current := cache_strategy (_kv_cache_config c) in
      match supported_cache_strategies with
      | [] => ret tt
      | first :: _ =>
          if KVCacheStrategy_eqb current MODEL_DEFAULT then
            modify (emit (Debug (DefaultStrategyEnabled first))) ;;;
            modify (set_cache_strategy first)
          else if negb (strategy_in current supported_cache_strategies) then
            modify (emit (Warning (StrategyNotSupported current enc first))) ;;;
            modify (set_cache_strategy first)
          else ret tt
      end
  end.

(** [_local_weight_path]: the file itself, then for an online
    repository the Hugging Face cache. *)
Definition _local_weight_path (relative_path : string) : M (option string) :=
  repo <- huggingface_weights_repo w ;;
  if path_exists w relative_path && is_file w relative_path then
    ret (Some (path_resolve w relative_path))
  else
    match repo_type repo with
    | Some local => ret None
    | Some online =>
        match try_to_load_from_cache w (repo_id repo) relative_path
                (revision repo) with
        | CachedNoExist =>
            throw FileNotFoundError (CachedNonExistent relative_path)
        | CachedPath s => if PyStr.truthy s then ret (Some s) else ret None
        | CacheMiss => ret None
        end
    | None =>
        modify (emit (Warning UnexpectedRepositoryTypeSeen)) ;;; ret None
    end.

(** Truth value of what [_local_weight_path] returns. *)
Definition found (r : option string) : bool :=
  match r with
  | Some s => PyStr.truthy s
  | None => false
  end.

(** One turn of the loop of
    [_validate_final_architecture_model_path_weight_path]. *)
Definition validate_path (repo : HuggingFaceRepo) (path : string) : M unit :=
  r <- _local_weight_path path ;;
  if found r then ret tt
  else
    match repo_type repo with
    | Some local =>
        throw FileNotFoundError (NotInLocalRepository path (repo_id repo))
    | Some online =>
        if negb (file_exists w repo path) then
          throw ValueError (NotOnHuggingFace path (repo_id repo))
        else ret tt
    | None => throw RuntimeError UnexpectedRepositoryType
    end.

Fixpoint validate_paths (repo : HuggingFaceRepo) (paths : list string) : M unit :=
  match paths with
  | [] => ret tt
  | path :: rest => validate_path repo path ;;; validate_paths repo rest
  end.

Definition _validate_final_architecture_model_path_weight_path : M unit :=
  c <- get ;;
  match weight_path c with
  | [] => throw AssertionError WeightPathMustBeProvided
  | _ :: _ =>
      repo <- huggingface_weights_repo w ;;
      validate_paths repo (weight_path c)
  end.

Definition validate_and_resolve_with_set_quantization_encoding
    (supported_encodings : list (SupportedEncoding * list KVCacheStrategy))
    (default_weights_format : WeightsFormat) : M unit :=
  _validate_quantization_encoding_device_compatibility
    (map fst supported_encodings) ;;;
  _finalize_encoding_config ;;;
  _resolve_weight_path default_weights_format ;;;
  _resolve_kv_cache_strategy supported_encodings ;;;
  _validate_final_architecture_model_path_weight_path.

(** [resolve()] followed by
    [validate_and_resolve_with_set_quantization_encoding]. *)
Definition resolve_then_validate (c : MAXModelConfig WeightPathArg)
    (supported_encodings : list (SupportedEncoding * list KVCacheStrategy))
    (default_weights_format : WeightsFormat) : Outcome Config :=
  match resolve w c with
  | Raised x => Raised x
  | Returned c1 =>
      match validate_and_resolve_with_set_quantization_encoding
              supported_encodings default_weights_format c1 with
      | Raised x => Raised x
      | Returned (_, c2) => Returned c2
      end
  end.
End WithSetEncoding.

(** ** A concrete world for examples

    A working directory with some files, a hub with some repositories,
    the devices [cpu:0] and [gpu:0], and weight files whose encoding is
    read from a tag in their name. *)
Module Fixtures.

Definition mem (x : string) (l : list string) : bool :=
  existsb (String.eqb x) l.

Definition cpu0 : DeviceSpec := {| id := 0; device_type := "cpu" |}.
Definition gpu0 : DeviceSpec := {| id := 0; device_type := "gpu" |}.
Definition gpu1 : DeviceSpec := {| id := 1; device_type := "gpu" |}.

Definition available (d : DeviceSpec) : bool :=
  (id d =? 0)%Z && ((device_type d =? "cpu") || (device_type d =? "gpu")).

Definition parse_by_tag (name : string) : option SupportedEncoding :=
  let n := PyStr.lower name in
  if PyStr.contains "f32" n || PyStr.contains "float32" n then Some float32
  else if PyStr.contains "bf16" n || PyStr.contains "bfloat16" n then Some bfloat16
  else if PyStr.contains "q4_k" n then Some q4_k
  else if PyStr.contains "q4_0" n then Some q4_0
  else if PyStr.contains "q6_k" n then Some q6_k
  else if PyStr.contains "gptq" n then Some gptq
  else None.

Definition format_by_suffix (paths : list string) : option WeightsFormat :=
  match paths with
  | [] => None
  | _ :: _ =>
      if forallb (fun p => PyStr.suffix p =? ".gguf") paths then Some gguf
      else if forallb (fun p => PyStr.suffix p =? ".safetensors") paths
      then Some safetensors
      else if forallb (fun p => PyStr.suffix p =? ".bin") paths then Some pytorch
      else None
  end.

Definition hub_has (hub : list (string * list string)) (repo file : string) : bool :=
  existsb (fun r => (fst r =? repo) && mem file (snd r)) hub.

Definition world (files : list string) (hub : list (string * list string))
    (encodings : list SupportedEncoding)
    (index : list (WeightsFormat * list string)) : World :=
  {| devices_exist := forallb available;
     scan_available_devices := [cpu0; gpu0];
     is_file := fun p => mem p files;
     path_exists := fun p => mem p files;
     path_resolve := fun p => "/cwd/" ++ p;
     hub_file_exists := hub_has hub;
     repo_exists_with_retry := fun r => mem r (map fst hub);
     try_to_load_from_cache := fun _ _ _ => CacheMiss;
     from_pretrained := fun _ _ _ =>
       Raised (raise_ ValueError (FromCollaborator "AutoConfig.from_pretrained"));
     weights_format := format_by_suffix;
     parse_from_file_name := parse_by_tag;
     supported_on := fun _ _ => true;
     graph_encoding := fun e =>
       match e with
       | q4_0 => Some {| graph_encoding_name := "Q4_0" |}
       | q4_k => Some {| graph_encoding_name := "Q4_K" |}
       | q6_k => Some {| graph_encoding_name := "Q6_K" |}
       | gptq => Some {| graph_encoding_name := "GPTQ" |}
       | _ => None
       end;
     _ALTERNATE_ENCODINGS := fun e =>
       match e with float32 => Some bfloat16 | _ => None end;
     classify := fun r => Some online;
     file_exists := fun repo p => hub_has hub (repo_id repo) p;
     encoding_for_file := fun _ p => parse_by_tag p;
     supported_encodings := fun _ => encodings;
     files_for_encoding := fun _ _ _ => index |}.

Definition kv_default : KVCacheConfig :=
  {| cache_strategy := MODEL_DEFAULT;
     kv_cache_page_size := 128;
     enable_prefix_caching := false;
     enable_kvcache_swapping_to_host := false;
     _available_cache_memory := None |}.

(** A configuration with the dataclass defaults, but for the three
    fields the user gives. *)
Definition config {W : Type} (model : string) (weights : W)
    (enc : option SupportedEncoding) (devices : list DeviceSpec)
    : MAXModelConfig W :=
  mkConfig model weights enc "main" false devices false None None
    kv_default None [].

End Fixtures.

(** * Properties *)

Example split_three : PyStr.split "/" "org/repo/f.gguf" = ["org"; "repo"; "f.gguf"].
Proof. reflexivity. Qed.

Example split_empty : PyStr.split "/" "" = [""].
Proof. reflexivity. Qed.

Example suffix_safetensors : PyStr.suffix "a/model.safetensors" = ".safetensors".
Proof. reflexivity. Qed.

Example suffix_hidden : PyStr.suffix ".bashrc" = "".
Proof. reflexivity. Qed.

Example Path_normalises :
  PyStr.Path "a//b/./c/" = "a/b/c" /\ PyStr.Path "" = "." /\
  PyStr.Path "//a" = "//a" /\ PyStr.Path "///a/b" = "/a/b" /\
  PyStr.Path "org/repo/file.gguf" = "org/repo/file.gguf".
Proof. repeat split. Qed.

Example lower_replit : PyStr.contains "replit" (PyStr.lower "org/RePlit-code") = true.
Proof. reflexivity. Qed.

(** ** Strings *)

Lemma startswith_spec (p s : string) :
  PyStr.startswith p s = true <-> exists post, s = p ++ post.
Proof.
  revert s; induction p as [|a p IH]; intros s; cbn.
  - split; [intros _; now exists s | reflexivity].
  - destruct s as [|b s]; cbn.
    + split; [discriminate | intros [post H]; discriminate].
    + rewrite andb_true_iff, IH. split.
      * intros [Hab [post ->]]. apply Ascii.eqb_eq in Hab. subst.
        now exists post.
      * intros [post H]. injection H as -> ->. split.
        -- apply Ascii.eqb_refl.
        -- now exists post.
Qed.

Lemma contains_spec (sub s : string) :
  PyStr.contains sub s = true <-> exists pre post, s = pre ++ sub ++ post.
Proof.
  induction s as [|c s IH].
  - cbn [PyStr.contains]. rewrite orb_false_r, startswith_spec. split.
    + intros [post H]. now exists "", post.
    + intros [pre [post H]]. destruct pre; [now exists post | discriminate].
  - cbn [PyStr.contains]. rewrite orb_true_iff, startswith_spec, IH. split.
    + intros [[post H] | [pre [post H]]].
      * now exists "", post.
      * exists (String c pre), post. cbn. now rewrite H.
    + intros [pre [post H]]. destruct pre as [|a pre].
      * left. now exists post.
      * right. cbn in H. injection H as _ H. now exists pre, post.
Qed.

Lemma SupportedEncoding_eqb_eq (a b : SupportedEncoding) :
  SupportedEncoding_eqb a b = true <-> a = b.
Proof. destruct a, b; cbn; split; congruence. Qed.

Lemma KVCacheStrategy_eqb_eq (a b : KVCacheStrategy) :
  KVCacheStrategy_eqb a b = true <-> a = b.
Proof. destruct a, b; cbn; split; congruence. Qed.

Lemma strategy_in_In (x : KVCacheStrategy) (l : list KVCacheStrategy) :
  strategy_in x l = true <-> In x l.
Proof.
  unfold strategy_in. rewrite existsb_exists. split.
  - intros [y [Hy E]]. apply KVCacheStrategy_eqb_eq in E. now subst.
  - intros H. exists x. split; [assumption | now apply KVCacheStrategy_eqb_eq].
Qed.

Lemma encoding_in_In (x : SupportedEncoding) (l : list SupportedEncoding) :
  encoding_in x l = true <-> In x l.
Proof.
  unfold encoding_in. rewrite existsb_exists. split.
  - intros [y [Hy E]]. apply SupportedEncoding_eqb_eq in E. now subst.
  - intros H. exists x. split; [assumption | now apply SupportedEncoding_eqb_eq].
Qed.

(** ** The model-family heuristic of [resolve] *)

Lemma resolve_returns_trust (w : World) (c : MAXModelConfig WeightPathArg)
    (c' : Config) :
  resolve w c = Returned c' ->
  trust_remote_code c' =
    if PyStr.contains "replit" (PyStr.lower (model_path c)) then true
    else trust_remote_code c.
Proof.
  unfold resolve.
  destruct (devices_exist w (device_specs c)); cbn [negb]; [|discriminate].
  destruct (normalize w _ _ _) as [[wp rid]|x]; [|discriminate].
  destruct (length wp =? 0)%nat.
  - destruct (model_path c =? ""); [discriminate|].
    destruct (negb _ && negb _); [discriminate|].
    intros H; injection H as <-; reflexivity.
  - destruct rid as [r|]; [destruct (model_path c =? "")|];
      intros H; injection H as <-; reflexivity.
Qed.

(** C9: when [resolve()] returns, [trust_remote_code] is [True] if the
    lower-cased [model_path] has ["replit"] as a substring, whatever the
    caller gave; for any other [model_path] it is what the caller gave. *)
Theorem resolve_replit_trust_remote_code
    (w : World) (c : MAXModelConfig WeightPathArg) (c' : Config) :
  resolve w c = Returned c' ->
  ((exists pre post, PyStr.lower (model_path c) = pre ++ "replit" ++ post) ->
   trust_remote_code c' = true) /\
  (~ (exists pre post, PyStr.lower (model_path c) = pre ++ "replit" ++ post) ->
   trust_remote_code c' = trust_remote_code c).
Proof.
  intros H. apply resolve_returns_trust in H. split; intros Hsub.
  - apply contains_spec in Hsub. now rewrite Hsub in H.
  - destruct (PyStr.contains "replit" (PyStr.lower (model_path c))) eqn:E.
    + exfalso. apply Hsub. now apply contains_spec.
    + exact H.
Qed.

Definition replit_config : MAXModelConfig WeightPathArg :=
  Fixtures.config "modularai/Replit-Code-1.5" (ArgList []) None [Fixtures.cpu0].

Lemma resolve_replit_trust_remote_code_witness :
  trust_remote_code replit_config = false /\
  exists c',
    resolve (Fixtures.world [] [("modularai/Replit-Code-1.5", [])] [] [])
      replit_config = Returned c' /\
    trust_remote_code c' = true.
Proof.
  split; [reflexivity|].
  eexists. split; [reflexivity|].
  eapply (proj1 (resolve_replit_trust_remote_code
                   (Fixtures.world [] [("modularai/Replit-Code-1.5", [])] [] [])
                   replit_config _ eq_refl)).
  exists "modularai/", "-code-1.5". reflexivity.
Defined.

(** ** The accessor [graph_quantization_encoding] *)

(** C10: [graph_quantization_encoding] raises exactly when
    [quantization_encoding] is [None], what it raises is a [ValueError],
    and otherwise it returns the graph encoding of the encoding that is
    set, with the configuration as it was. *)
Theorem graph_quantization_encoding_spec (w : World) (c : Config) :
  ((exists x, graph_quantization_encoding w c = Raised x) <->
   quantization_encoding c = None) /\
  (forall x, graph_quantization_encoding w c = Raised x -> kind x = ValueError) /\
  (forall e, quantization_encoding c = Some e ->
     graph_quantization_encoding w c = Returned (graph_encoding w e, c)).
Proof.
  unfold graph_quantization_encoding, bind, get, throw, ret.
  destruct (quantization_encoding c) as [e|]; repeat split.
  - intros [x H]; discriminate.
  - discriminate.
  - discriminate.
  - intros e' H; injection H as <-; reflexivity.
  - intros _. eexists; reflexivity.
  - intros x H; injection H as <-; reflexivity.
  - discriminate.
Qed.

(** ** The KV cache strategy *)

Section KVCacheStrategy.
Variable supported_encodings : list (SupportedEncoding * list KVCacheStrategy).
Variable c : Config.
Variable enc : SupportedEncoding.
Hypothesis encoding_set : quantization_encoding c = Some enc.

Let strategies := dict_get SupportedEncoding_eqb enc supported_encodings.
Let current := cache_strategy (_kv_cache_config c).

Lemma kv_model_default (first : KVCacheStrategy) (rest : list KVCacheStrategy) :
  current = MODEL_DEFAULT -> strategies = first :: rest ->
  _resolve_kv_cache_strategy supported_encodings c =
    Returned (tt, set_cache_strategy first
                    (emit (Debug (DefaultStrategyEnabled first)) c)).
Proof.
  subst strategies current. intros Hcur Hs.
  unfold _resolve_kv_cache_strategy, bind, get. rewrite encoding_set, Hs, Hcur.
  reflexivity.
Qed.

Lemma kv_unsupported (first : KVCacheStrategy) (rest : list KVCacheStrategy) :
  current <> MODEL_DEFAULT -> strategies = first :: rest ->
  ~ In current strategies ->
  _resolve_kv_cache_strategy supported_encodings c =
    Returned (tt, set_cache_strategy first
                    (emit (Warning (StrategyNotSupported current enc first)) c)).
Proof.
  subst strategies current. intros Hcur Hs Hin.
  unfold _resolve_kv_cache_strategy, bind, get. rewrite encoding_set, Hs.
  destruct (KVCacheStrategy_eqb _ MODEL_DEFAULT) eqn:E.
  { apply KVCacheStrategy_eqb_eq in E. contradiction. }
  destruct (strategy_in _ (first :: rest)) eqn:E2.
  { apply strategy_in_In in E2. rewrite Hs in Hin. contradiction. }
  reflexivity.
Qed.

Lemma kv_unchanged :
  strategies = [] \/ (current <> MODEL_DEFAULT /\ In current strategies) ->
  _resolve_kv_cache_strategy supported_encodings c = Returned (tt, c).
Proof.
  subst strategies current. intros H.
  unfold _resolve_kv_cache_strategy, bind, get. rewrite encoding_set.
  destruct H as [-> | [Hcur Hin]]; [reflexivity|].
  destruct (dict_get _ _ _) as [|first rest] eqn:Hs; [reflexivity|].
  destruct (KVCacheStrategy_eqb _ MODEL_DEFAULT) eqn:E.
  { apply KVCacheStrategy_eqb_eq in E. contradiction. }
  apply strategy_in_In in Hin. rewrite Hin. reflexivity.
Qed.
End KVCacheStrategy.

(** C7: with the encoding set and [l] the list the caller's mapping has
    for it (empty when it has none): if the strategy is [MODEL_DEFAULT]
    and [l] is not empty, the strategy becomes the head of [l]; if it is
    another strategy that is not in the non-empty [l], it becomes the
    head of [l], a warning is logged and nothing is raised; in all other
    cases the configuration is returned as it was. *)
Theorem resolve_kv_cache_strategy_spec
    (supported_encodings : list (SupportedEncoding * list KVCacheStrategy))
    (c : Config) (enc : SupportedEncoding) :
  quantization_encoding c = Some enc ->
  let l := dict_get SupportedEncoding_eqb enc supported_encodings in
  let current := cache_strategy (_kv_cache_config c) in
  (forall first rest, current = MODEL_DEFAULT -> l = first :: rest ->
     exists c', _resolve_kv_cache_strategy supported_encodings c = Returned (tt, c') /\
                cache_strategy (_kv_cache_config c') = first) /\
  (forall first rest, current <> MODEL_DEFAULT -> l = first :: rest ->
     ~ In current l ->
     exists c', _resolve_kv_cache_strategy supported_encodings c = Returned (tt, c') /\
                cache_strategy (_kv_cache_config c') = first /\
                logged c' = Warning (StrategyNotSupported current enc first)
                              :: logged c) /\
  (l = [] \/ (current <> MODEL_DEFAULT /\ In current l) ->
     _resolve_kv_cache_strategy supported_encodings c = Returned (tt, c)).
Proof.
  intros Henc l current. repeat split.
  - intros first rest Hcur Hl. eexists. split.
    + eapply kv_model_default; eassumption.
    + reflexivity.
  - intros first rest Hcur Hl Hin. eexists. split.
    + eapply kv_unsupported; eassumption.
    + split; reflexivity.
  - intros H. eapply kv_unchanged; eassumption.
Qed.

Definition continuous_q4k : Config :=
  set_cache_strategy CONTINUOUS
    (Fixtures.config "acme/llama-x" ["llama-q4_k.gguf"] (Some q4_k) [Fixtures.cpu0]).

Lemma resolve_kv_cache_strategy_spec_witness :
  exists c',
    _resolve_kv_cache_strategy [(q4_k, [PAGED])] continuous_q4k = Returned (tt, c') /\
    cache_strategy (_kv_cache_config c') = PAGED /\
    logged c' = [Warning (StrategyNotSupported CONTINUOUS q4_k PAGED)].
Proof.
  apply (proj1 (proj2 (resolve_kv_cache_strategy_spec
                         [(q4_k, [PAGED])] continuous_q4k q4_k eq_refl))
           PAGED []).
  - cbn; discriminate.
  - reflexivity.
  - cbn; intros [H | []]; discriminate.
Defined.

(** ** Weight-path normalisation *)

Lemma split_not_nil (sep : ascii) (s : string) : PyStr.split sep s <> [].
Proof.
  destruct s as [|c r]; cbn; [discriminate|].
  destruct (Ascii.eqb c sep); [discriminate|].
  destruct (PyStr.split sep r); discriminate.
Qed.

Lemma join_cons_char (sep : string) (c : ascii) (h : string) (t : list string) :
  PyStr.join sep (String c h :: t) = String c (PyStr.join sep (h :: t)).
Proof. destruct t; reflexivity. Qed.

(** [''.join] undoes [split]. *)
Lemma join_split (s : string) : PyStr.join "/" (PyStr.split "/" s) = s.
Proof.
  induction s as [|c r IH]; [reflexivity|].
  cbn [PyStr.split]. destruct (Ascii.eqb c "/") eqn:E.
  - apply Ascii.eqb_eq in E. subst c.
    destruct (PyStr.split "/" r) as [|h t] eqn:Hs.
    + now apply split_not_nil in Hs.
    + change (PyStr.join "/" ("" :: h :: t))
        with ("" ++ "/" ++ PyStr.join "/" (h :: t)).
      rewrite IH. reflexivity.
  - destruct (PyStr.split "/" r) as [|h t] eqn:Hs.
    + now apply split_not_nil in Hs.
    + rewrite join_cons_char, IH. reflexivity.
Qed.

(** A segment without separator is split off whole. *)
Lemma split_segment (seg rest : string) :
  PyStr.split "/" seg = [seg] ->
  PyStr.split "/" (seg ++ "/" ++ rest) = seg :: PyStr.split "/" rest.
Proof.
  induction seg as [|c o IH]; intros H; [reflexivity|].
  cbn [PyStr.split] in H. cbn [append PyStr.split].
  destruct (Ascii.eqb c "/"); [discriminate|].
  destruct (PyStr.split "/" o) as [|h t] eqn:Hs.
  - now apply split_not_nil in Hs.
  - injection H as -> ->. specialize (IH eq_refl). cbn [append] in IH.
    rewrite IH. reflexivity.
Qed.

Lemma split_org_repo_file (org repo file : string) :
  PyStr.split "/" org = [org] -> PyStr.split "/" repo = [repo] ->
  exists f fs,
    PyStr.split "/" (org ++ "/" ++ repo ++ "/" ++ file) = org :: repo :: f :: fs /\
    PyStr.join "/" (f :: fs) = file.
Proof.
  intros Ho Hr. rewrite (split_segment org _ Ho), (split_segment repo _ Hr).
  destruct (PyStr.split "/" file) as [|f fs] eqn:Hs.
  - now apply split_not_nil in Hs.
  - exists f, fs. split; [reflexivity|]. rewrite <- Hs. apply join_split.
Qed.

(** One turn of the loop on an entry [org/repo/file] written in normal
    form, given as a string or as a path that is not a local file. *)
Lemma normalize_entry_repo_prefix
    (w : World) (model : string) (rid : option string) (e : Entry)
    (org repo file : string) :
  let s := org ++ "/" ++ repo ++ "/" ++ file in
  PyStr.split "/" org = [org] -> PyStr.split "/" repo = [repo] ->
  PyStr.Path s = s -> PyStr.Path file = file ->
  e = EStr s \/ (e = EPath s /\ is_file w s = false) ->
  (model <> "" -> org ++ "/" ++ repo = model ->
     normalize_entry w model rid e = Returned (file, rid)) /\
  (org ++ "/" ++ repo <> model ->
   hub_file_exists w (org ++ "/" ++ repo) file = true ->
     normalize_entry w model rid e = Returned (file, Some (org ++ "/" ++ repo))).
Proof.
  intros s Ho Hr Hns Hnf He.
  destruct (split_org_repo_file org repo file Ho Hr) as [f [fs [Hs Hj]]].
  assert (Hn : normalize_entry w model rid e = split_repo_id w model rid s).
  { destruct He as [-> | [-> Hf]]; cbn [normalize_entry];
      [rewrite Hns | rewrite Hf]; reflexivity. }
  rewrite Hn. unfold split_repo_id. fold s in Hs. rewrite Hs.
  cbn [length Nat.leb nth skipn]. cbv zeta. rewrite Hj, Hnf. split.
  - intros Hm Heq. rewrite Heq, String.eqb_refl.
    apply String.eqb_neq in Hm. rewrite Hm. reflexivity.
  - intros Hneq Hhub. apply String.eqb_neq in Hneq. rewrite Hneq, andb_false_r, Hhub.
    reflexivity.
Qed.


(** Paths that are local files go through the loop untouched. *)
Lemma normalize_local_paths (w : World) (model : string) (rid : option string)
    (paths : list string) :
  Forall (fun p => is_file w p = true) paths ->
  normalize w model rid (map EPath paths) = Returned (paths, rid).
Proof.
  induction 1 as [|p ps Hp _ IH]; [reflexivity|].
  cbn. rewrite Hp, IH. reflexivity.
Qed.

(** With [Path] entries only, local files are kept by [resolve], and
    [resolve] on its own output keeps them again. *)
Lemma resolve_local_paths (w : World) (c : MAXModelConfig WeightPathArg)
    (paths : list string) :
  devices_exist w (device_specs c) = true ->
  weight_path c = ArgList (map EPath paths) -> paths <> [] ->
  Forall (fun p => is_file w p = true) paths ->
  exists c', resolve w c = Returned c' /\ weight_path c' = paths /\
             _weights_repo_id c' = _weights_repo_id c.
Proof.
  intros Hd Hw Hne Hall. unfold resolve. rewrite Hd, Hw. cbn [negb as_list].
  rewrite (normalize_local_paths w _ _ _ Hall).
  destruct paths as [|p ps]; [contradiction|]. cbn [length Nat.eqb].
  destruct (_weights_repo_id c); [destruct (model_path c =? "")|];
    eexists; (split; [reflexivity|]); split; reflexivity.
Qed.

Definition local_weights_world : World :=
  Fixtures.world ["model.gguf"; "org/repo/model.gguf"] [] [] [].

(** C1: the code at two lists whose only entry is a string naming a
    local file.  With [model_path = "org/repo"] the entry
    ["org/repo/model.gguf"] is split and becomes ["model.gguf"]; with an
    empty [model_path] the entry ["model.gguf"] makes [resolve] raise a
    [ValueError].  The same entries given as [Path] are kept. *)
Theorem resolve_local_string_entries :
  (exists c',
     resolve local_weights_world
       (Fixtures.config "org/repo" (ArgList [EStr "org/repo/model.gguf"]) None
          [Fixtures.cpu0]) = Returned c' /\
     weight_path c' = ["model.gguf"]) /\
  resolve local_weights_world
    (Fixtures.config "" (ArgList [EStr "model.gguf"]) None [Fixtures.cpu0])
    = Raised (raise_ ValueError UnableToDeriveModelPath) /\
  (exists c',
     resolve local_weights_world
       (Fixtures.config "org/repo" (ArgList [EPath "org/repo/model.gguf"]) None
          [Fixtures.cpu0]) = Returned c' /\
     weight_path c' = ["org/repo/model.gguf"]) /\
  is_file local_weights_world "org/repo/model.gguf" = true /\
  is_file local_weights_world "model.gguf" = true.
Proof.
  repeat split; try reflexivity; eexists; split; reflexivity.
Qed.

(** ** The repository behind the accessor *)

(** The repository [huggingface_weights_repo] answers with. *)
Definition weights_repo (w : World) (c : Config) : HuggingFaceRepo :=
  match huggingface_weights_repo_cache c with
  | Some r => r
  | None => new_weights_repo w c
  end.

(** The configuration after the accessor was read. *)
Definition accessed (w : World) (c : Config) : Config :=
  match huggingface_weights_repo_cache c with
  | Some _ => c
  | None => set_repo_cache (Some (new_weights_repo w c)) c
  end.

Lemma huggingface_weights_repo_eq (w : World) (c : Config) :
  huggingface_weights_repo w c = Returned (weights_repo w c, accessed w c).
Proof.
  unfold huggingface_weights_repo, weights_repo, accessed.
  destruct (huggingface_weights_repo_cache c); reflexivity.
Qed.

Lemma accessed_fields (w : World) (c : Config) :
  weight_path (accessed w c) = weight_path c /\
  quantization_encoding (accessed w c) = quantization_encoding c /\
  device_specs (accessed w c) = device_specs c /\
  model_path (accessed w c) = model_path c /\
  _kv_cache_config (accessed w c) = _kv_cache_config c /\
  logged (accessed w c) = logged c.
Proof.
  unfold accessed. destruct (huggingface_weights_repo_cache c); cbn; tauto.
Qed.

Lemma accessed_twice (w : World) (c : Config) :
  weights_repo w (accessed w c) = weights_repo w c /\
  accessed w (accessed w c) = accessed w c.
Proof.
  unfold weights_repo, accessed.
  destruct (huggingface_weights_repo_cache c) eqn:E; cbn; rewrite ?E; split; reflexivity.
Qed.

(** ** Choosing an encoding when none is given *)

Lemma no_weights_no_encoding (w : World) (default_encoding : SupportedEncoding)
    (c : Config) :
  weight_path c = [] -> quantization_encoding c = None ->
  validate_and_resolve_quantization_encoding_weight_path w default_encoding c =
    default_encoding_choice w default_encoding c.
Proof.
  intros Hw Hq.
  unfold validate_and_resolve_quantization_encoding_weight_path, bind, get.
  rewrite Hq, Hw. reflexivity.
Qed.

(** C2, as the claim has it, at the devices [cpu:0, gpu:0] and a
    repository with [bfloat16] and [float32] weights: a device that is
    not a CPU is requested and [bfloat16] is supported, yet the default
    encoding [float32] is adopted, because only the first device is
    looked at. *)
Lemma any_device_counterexample :
  let w := Fixtures.world [] [("acme/llama-x", [])] [bfloat16; float32] [] in
  let c : Config :=
    Fixtures.config "acme/llama-x" [] None [Fixtures.cpu0; Fixtures.gpu0] in
  weight_path c = [] /\ quantization_encoding c = None /\
  length (supported_encodings w (weights_repo w c)) <> 1%nat /\
  (exists d, In d (device_specs c) /\ device_type d <> "cpu") /\
  In bfloat16 (supported_encodings w (weights_repo w c)) /\
  exists c',
    validate_and_resolve_quantization_encoding_weight_path w float32 c
      = Returned (tt, c') /\
    quantization_encoding c' = Some float32 /\
    quantization_encoding c' <> Some bfloat16.
Proof.
  cbn zeta. repeat split.
  - cbn; discriminate.
  - exists Fixtures.gpu0. split; [cbn; tauto | cbn; discriminate].
  - cbn; tauto.
  - eexists. split; [cbv; reflexivity|]. split; [reflexivity | cbn; discriminate].
Qed.

(** C2, amended: with no weight path and no encoding, if the repository
    supports exactly one encoding it is adopted; otherwise, if the first
    requested device is not a CPU and [bfloat16] is supported, [bfloat16]
    is adopted; otherwise, with a first device, the caller's default is
    adopted. *)
Theorem default_encoding_priority
    (w : World) (default_encoding : SupportedEncoding) (c : Config) :
  weight_path c = [] -> quantization_encoding c = None ->
  let supported := supported_encodings w (weights_repo w c) in
  let run := validate_and_resolve_quantization_encoding_weight_path
               w default_encoding c in
  (forall only, supported = [only] ->
     exists c', run = Returned (tt, c') /\ quantization_encoding c' = Some only) /\
  (forall d ds, length supported <> 1%nat -> device_specs c = d :: ds ->
     device_type d <> "cpu" -> In bfloat16 supported ->
     exists c', run = Returned (tt, c') /\
                quantization_encoding c' = Some bfloat16) /\
  (forall d ds, length supported <> 1%nat -> device_specs c = d :: ds ->
     device_type d = "cpu" \/ ~ In bfloat16 supported ->
     exists c', run = Returned (tt, c') /\
                quantization_encoding c' = Some default_encoding).
Proof.
  intros Hw Hq supported run. subst run.
  rewrite (no_weights_no_encoding w _ c Hw Hq).
  unfold default_encoding_choice, bind. rewrite huggingface_weights_repo_eq.
  fold supported.
  destruct (accessed_fields w c) as (_ & _ & Hd & _).
  repeat split.
  - intros only ->. eexists. split; reflexivity.
  - intros d ds Hlen Hdev Hcpu Hbf.
    apply String.eqb_neq in Hcpu. apply encoding_in_In in Hbf.
    destruct supported as [|a [|b l]]; [| now contradiction Hlen |];
      unfold get; cbv beta iota; rewrite Hd, Hdev, Hcpu, Hbf;
      eexists; split; reflexivity.
  - intros d ds Hlen Hdev Hor.
    assert (E : negb (device_type d =? "cpu") && encoding_in bfloat16 supported
                = false).
    { destruct Hor as [-> | Hn]; [reflexivity|].
      destruct (encoding_in bfloat16 supported) eqn:E.
      - apply encoding_in_In in E. contradiction.
      - apply andb_false_r. }
    destruct supported as [|a [|b l]]; [| now contradiction Hlen |];
      unfold get; cbv beta iota; rewrite Hd, Hdev, E;
      eexists; split; reflexivity.
Qed.

Lemma default_encoding_priority_witness :
  let w := Fixtures.world [] [("acme/llama-x", [])] [bfloat16; float32] [] in
  let c : Config := Fixtures.config "acme/llama-x" [] None [Fixtures.gpu0] in
  exists c',
    validate_and_resolve_quantization_encoding_weight_path w float32 c
      = Returned (tt, c') /\
    quantization_encoding c' = Some bfloat16.
Proof.
  cbn zeta.
  apply (proj1 (proj2 (default_encoding_priority
           (Fixtures.world [] [("acme/llama-x", [])] [bfloat16; float32] [])
           float32
           (Fixtures.config "acme/llama-x" [] None [Fixtures.gpu0])
           eq_refl eq_refl))
         Fixtures.gpu0 []).
  - cbn; discriminate.
  - reflexivity.
  - cbn; discriminate.
  - cbn; tauto.
Defined.

(** ** Weight paths with and without an encoding *)

Lemma weights_no_encoding (w : World) (default_encoding : SupportedEncoding)
    (c : Config) (w0 : string) (rest : list string) :
  weight_path c = w0 :: rest -> quantization_encoding c = None ->
  weights_format w (weight_path c) <> Some pytorch ->
  validate_and_resolve_quantization_encoding_weight_path w default_encoding c =
    infer_encoding w w0 c.
Proof.
  intros Hw Hq Hf.
  unfold validate_and_resolve_quantization_encoding_weight_path, bind, get.
  rewrite Hq. rewrite Hw in *.
  destruct (weights_format w (w0 :: rest)) as [[| |]|]; cbn; congruence.
Qed.

(** A local [.safetensors] file without an encoding is refused. *)
Lemma local_safetensors_needs_encoding (w : World)
    (default_encoding : SupportedEncoding) (c : Config) (w0 : string)
    (rest : list string) :
  weight_path c = w0 :: rest -> quantization_encoding c = None ->
  weights_format w (weight_path c) <> Some pytorch ->
  path_exists w w0 = true -> PyStr.suffix w0 = ".safetensors" ->
  validate_and_resolve_quantization_encoding_weight_path w default_encoding c =
    Raised (raise_ ValueError LocalSafetensorsNeedsEncoding).
Proof.
  intros Hw Hq Hf He Hs. rewrite (weights_no_encoding w _ c w0 rest Hw Hq Hf).
  unfold infer_encoding. rewrite He, Hs. reflexivity.
Qed.

(** A remote file whose encoding the repository cannot tell is refused. *)
Lemma remote_inference_failure (w : World)
    (default_encoding : SupportedEncoding) (c : Config) (w0 : string)
    (rest : list string) :
  weight_path c = w0 :: rest -> quantization_encoding c = None ->
  weights_format w (weight_path c) <> Some pytorch ->
  path_exists w w0 = false ->
  encoding_for_file w (weights_repo w c) w0 = None ->
  validate_and_resolve_quantization_encoding_weight_path w default_encoding c =
    Raised (raise_ ValueError (EncodingCannotBeInferred w0)).
Proof.
  intros Hw Hq Hf He Hn. rewrite (weights_no_encoding w _ c w0 rest Hw Hq Hf).
  unfold infer_encoding, bind. rewrite He, huggingface_weights_repo_eq, Hn.
  reflexivity.
Qed.

(** A local file whose name tells no encoding passes, and the encoding
    stays unset. *)
Lemma local_inference_failure (w : World)
    (default_encoding : SupportedEncoding) (c : Config) (w0 : string)
    (rest : list string) :
  weight_path c = w0 :: rest -> quantization_encoding c = None ->
  weights_format w (weight_path c) <> Some pytorch ->
  path_exists w w0 = true -> PyStr.suffix w0 <> ".safetensors" ->
  parse_from_file_name w w0 = None ->
  validate_and_resolve_quantization_encoding_weight_path w default_encoding c =
    Returned (tt, c).
Proof.
  intros Hw Hq Hf He Hs Hn. rewrite (weights_no_encoding w _ c w0 rest Hw Hq Hf).
  unfold infer_encoding. apply String.eqb_neq in Hs. rewrite He, Hs, Hn.
  reflexivity.
Qed.

Definition untagged_world : World :=
  Fixtures.world ["weights.gguf"] [("acme/llama-x", ["weights.gguf"])] [q4_k] [].

Definition untagged_config : Config :=
  Fixtures.config "acme/llama-x" ["weights.gguf"] None [Fixtures.cpu0].

(** C3: the code at a local GGUF file whose name carries no encoding
    tag, with no encoding given: the format is not pytorch, no encoding
    can be read from the name, and the method returns with
    [quantization_encoding] still [None]; the stage that follows then
    fails its assertion. *)
Theorem local_untagged_file_leaves_encoding_unset :
  weight_path untagged_config = ["weights.gguf"] /\
  quantization_encoding untagged_config = None /\
  weights_format untagged_world (weight_path untagged_config) = Some gguf /\
  path_exists untagged_world "weights.gguf" = true /\
  parse_from_file_name untagged_world "weights.gguf" = None /\
  validate_and_resolve_quantization_encoding_weight_path untagged_world float32
    untagged_config = Returned (tt, untagged_config) /\
  validate_and_resolve_with_set_quantization_encoding untagged_world
    [(q4_k, [PAGED])] gguf untagged_config
    = Raised (raise_ AssertionError EncodingMustBeSet).
Proof. repeat split. Qed.

(** C6: with a weight path, an encoding given and a format that is not
    pytorch, when the encoding read for the first weight file (from its
    name if the file exists, from the repository otherwise) is not the
    one given, a [ValueError] is raised whose message has the path and
    both encodings. *)
Theorem inconsistent_encoding_is_refused
    (w : World) (default_encoding : SupportedEncoding) (c : Config)
    (w0 : string) (rest : list string) (given fe : SupportedEncoding) :
  weight_path c = w0 :: rest -> quantization_encoding c = Some given ->
  weights_format w (weight_path c) <> Some pytorch ->
  (if path_exists w w0 then parse_from_file_name w w0
   else encoding_for_file w (weights_repo w c) w0) = Some fe ->
  fe <> given ->
  validate_and_resolve_quantization_encoding_weight_path w default_encoding c =
    Raised (raise_ ValueError (InconsistentEncoding w0 fe given)).
Proof.
  intros Hw Hq Hf Hfe Hne.
  assert (E : SupportedEncoding_eqb fe given = false).
  { destruct (SupportedEncoding_eqb fe given) eqn:E; [|reflexivity].
    apply SupportedEncoding_eqb_eq in E. contradiction. }
  unfold validate_and_resolve_quantization_encoding_weight_path, bind, get.
  rewrite Hq. rewrite Hw in *.
  assert (Hnp : not_pytorch (weights_format w (w0 :: rest)) = true).
  { destruct (weights_format w (w0 :: rest)) as [[| |]|]; cbn; congruence. }
  rewrite Hnp. unfold check_given_encoding, bind.
  destruct (path_exists w w0).
  - unfold ret. rewrite Hfe, E. reflexivity.
  - rewrite huggingface_weights_repo_eq. unfold ret. rewrite Hfe, E. reflexivity.
Qed.

Lemma inconsistent_encoding_is_refused_witness :
  validate_and_resolve_quantization_encoding_weight_path
    (Fixtures.world ["llama-bf16.gguf"] [] [] []) q4_k
    (Fixtures.config "acme/llama-x" ["llama-bf16.gguf"] (Some float32)
       [Fixtures.cpu0])
  = Raised (raise_ ValueError (InconsistentEncoding "llama-bf16.gguf" bfloat16 float32)).
Proof.
  apply (inconsistent_encoding_is_refused
           (Fixtures.world ["llama-bf16.gguf"] [] [] []) q4_k
           (Fixtures.config "acme/llama-x" ["llama-bf16.gguf"] (Some float32)
              [Fixtures.cpu0])
           "llama-bf16.gguf" [] float32 bfloat16 eq_refl eq_refl).
  - cbn; discriminate.
  - reflexivity.
  - discriminate.
Defined.

(** ** The final check of the weight paths *)

Section FinalValidation.
Variable w : World.
Variable c : Config.

Let repo := weights_repo w c.
Let c0 := accessed w c.

(** [_local_weight_path] answers for [q] with a value that is true
    (resp. false), once the repository has been read. *)
Definition found_locally (q : string) : Prop :=
  exists r c1, _local_weight_path w q c0 = Returned (r, c1) /\ found r = true.

Definition not_found_locally (q : string) : Prop :=
  exists r c1, _local_weight_path w q c0 = Returned (r, c1) /\ found r = false.

Lemma repo_read_again : huggingface_weights_repo w c0 = Returned (repo, c0).
Proof.
  subst repo c0. rewrite huggingface_weights_repo_eq.
  destruct (accessed_twice w c) as [-> ->]. reflexivity.
Qed.

(** A file that is found leaves the configuration alone. *)
Lemma found_keeps_state (q : string) (r : option string) (c1 : Config) :
  _local_weight_path w q c0 = Returned (r, c1) -> found r = true -> c1 = c0.
Proof.
  unfold _local_weight_path, bind. rewrite repo_read_again.
  destruct (path_exists w q && is_file w q).
  - unfold ret. intros H _. now injection H as _ <-.
  - destruct (repo_type repo) as [[|]|].
    + destruct (try_to_load_from_cache w _ _ _) as [s| |].
      * destruct (PyStr.truthy s); unfold ret; intros H; now injection H as _ <-.
      * discriminate.
      * unfold ret; intros H; now injection H as _ <-.
    + unfold ret; intros H; now injection H as _ <-.
    + unfold modify, ret. intros H. injection H as <- _. discriminate.
Qed.

Lemma validate_path_found (q : string) :
  found_locally q -> validate_path w repo q c0 = Returned (tt, c0).
Proof.
  intros (r & c1 & Hl & Hf). unfold validate_path, bind.
  rewrite Hl, Hf. rewrite (found_keeps_state q r c1 Hl Hf). reflexivity.
Qed.

Lemma validate_paths_found (pre l : list string) :
  Forall found_locally pre ->
  validate_paths w repo (pre ++ l) c0 = validate_paths w repo l c0.
Proof.
  induction 1 as [|q qs Hq _ IH]; [reflexivity|].
  cbn [app validate_paths]. unfold bind at 1.
  rewrite (validate_path_found q Hq). exact IH.
Qed.

Lemma validate_path_not_found (q : string) :
  not_found_locally q ->
  validate_path w repo q c0 =
    match repo_type repo with
    | Some local =>
        Raised (raise_ FileNotFoundError (NotInLocalRepository q (repo_id repo)))
    | Some online =>
        if file_exists w repo q then
          match _local_weight_path w q c0 with
          | Returned (_, c1) => Returned (tt, c1)
          | Raised x => Raised x
          end
        else Raised (raise_ ValueError (NotOnHuggingFace q (repo_id repo)))
    | None => Raised (raise_ RuntimeError UnexpectedRepositoryType)
    end.
Proof.
  intros (r & c1 & Hl & Hf). unfold validate_path, bind.
  rewrite Hl, Hf. destruct (repo_type repo) as [[|]|]; try reflexivity.
  destruct (file_exists w repo q); reflexivity.
Qed.

Lemma final_validation_start :
  weight_path c <> [] ->
  _validate_final_architecture_model_path_weight_path w c =
    validate_paths w repo (weight_path c) c0.
Proof.
  intros Hne. unfold _validate_final_architecture_model_path_weight_path, bind, get.
  destruct (weight_path c) as [|q qs] eqn:E; [contradiction|].
  rewrite huggingface_weights_repo_eq. reflexivity.
Qed.
End FinalValidation.

(** C8: the final check goes through [weight_path] in order.  At the
    first entry that [_local_weight_path] does not find, it raises a
    [FileNotFoundError] for a local repository, a [ValueError] for an
    online repository that does not have the file, and a [RuntimeError]
    for a repository of neither kind; when every entry of a non-empty
    [weight_path] is found, it returns. *)
Theorem final_validation_first_missing_is_fatal (w : World) (c : Config) :
  let repo := weights_repo w c in
  let run := _validate_final_architecture_model_path_weight_path w c in
  (forall pre p post,
     weight_path c = (pre ++ p :: post)%list ->
     Forall (found_locally w c) pre -> not_found_locally w c p ->
     (repo_type repo = Some local ->
        run = Raised (raise_ FileNotFoundError
                        (NotInLocalRepository p (repo_id repo)))) /\
     (repo_type repo = Some online -> file_exists w repo p = false ->
        run = Raised (raise_ ValueError (NotOnHuggingFace p (repo_id repo)))) /\
     (repo_type repo = None ->
        run = Raised (raise_ RuntimeError UnexpectedRepositoryType))) /\
  (weight_path c <> [] -> Forall (found_locally w c) (weight_path c) ->
   exists c', run = Returned (tt, c')).
Proof.
  intros repo run. split.
  - intros pre p post Hw Hpre Hp.
    assert (Hrun : run = bind (validate_path w repo p)
                           (fun _ => validate_paths w repo post) (accessed w c)).
    { subst run. rewrite final_validation_start.
      - rewrite Hw. rewrite (validate_paths_found w c pre _ Hpre). reflexivity.
      - rewrite Hw. destruct pre; discriminate. }
    rewrite Hrun. subst repo. unfold bind.
    rewrite (validate_path_not_found w c p Hp). repeat split.
    + intros ->. reflexivity.
    + intros -> ->. reflexivity.
    + intros ->. reflexivity.
  - intros Hne Hall. subst run. rewrite (final_validation_start w c Hne).
    exists (accessed w c).
    rewrite <- (app_nil_r (weight_path c)).
    rewrite (validate_paths_found w c _ [] Hall). reflexivity.
Qed.

Definition sharded_world : World :=
  Fixtures.world ["model-00001.safetensors"]
    [("acme/llama-x", ["model-00001.safetensors"])] [bfloat16] [].

Definition sharded_config : Config :=
  Fixtures.config "acme/llama-x"
    ["model-00001.safetensors"; "model-00002.safetensors"] (Some bfloat16)
    [Fixtures.gpu0].

Lemma final_validation_first_missing_is_fatal_witness :
  _validate_final_architecture_model_path_weight_path sharded_world sharded_config
  = Raised (raise_ ValueError
              (NotOnHuggingFace "model-00002.safetensors" "acme/llama-x")).
Proof.
  assert (H1 : found_locally sharded_world sharded_config
                 "model-00001.safetensors").
  { do 2 eexists. split; [cbv; reflexivity | reflexivity]. }
  assert (H2 : not_found_locally sharded_world sharded_config
                 "model-00002.safetensors").
  { do 2 eexists. split; [cbv; reflexivity | reflexivity]. }
  apply (proj1 (proj2 (proj1 (final_validation_first_missing_is_fatal
                                sharded_world sharded_config)
                         ["model-00001.safetensors"] "model-00002.safetensors" []
                         eq_refl (Forall_cons _ H1 (Forall_nil _)) H2)));
    reflexivity.
Defined.

(** ** What holds when the whole resolution returns *)

(** The fields that the later stages only read. *)
Definition same_core (c c' : Config) : Prop :=
  weight_path c' = weight_path c /\
  quantization_encoding c' = quantization_encoding c /\
  model_path c' = model_path c.

Lemma same_core_refl (c : Config) : same_core c c.
Proof. repeat split. Qed.

Lemma same_core_trans (a b c : Config) :
  same_core a b -> same_core b c -> same_core a c.
Proof.
  unfold same_core. intros (H1 & H2 & H3) (H4 & H5 & H6).
  repeat split; congruence.
Qed.

#[local] Hint Resolve same_core_refl : core.

Lemma repo_access_core (w : World) (c c' : Config) (r : HuggingFaceRepo) :
  huggingface_weights_repo w c = Returned (r, c') -> same_core c c'.
Proof.
  unfold huggingface_weights_repo.
  destruct (huggingface_weights_repo_cache c); intros H; injection H as _ <-;
    repeat split.
Qed.

Lemma local_weight_path_core (w : World) (q : string) (c c' : Config)
    (r : option string) :
  _local_weight_path w q c = Returned (r, c') -> same_core c c'.
Proof.
  unfold _local_weight_path, bind.
  destruct (huggingface_weights_repo w c) as [[repo c1]|x] eqn:E; [|discriminate].
  apply repo_access_core in E.
  assert (K : forall v c2, @Returned (option string * Config) (v, c1)
                           = Returned (r, c2) -> same_core c c2).
  { intros v c2 H. injection H as _ <-. exact E. }
  destruct (path_exists w q && is_file w q); [apply K|].
  destruct (repo_type repo) as [[|]|].
  - destruct (try_to_load_from_cache w _ _ _) as [s| |];
      [destruct (PyStr.truthy s); apply K | discriminate | apply K].
  - apply K.
  - unfold modify, ret. intros H. injection H as _ <-.
    destruct E as (H1 & H2 & H3). repeat split; assumption.
Qed.

Lemma validate_path_core (w : World) (repo : HuggingFaceRepo) (q : string)
    (c c' : Config) (u : unit) :
  validate_path w repo q c = Returned (u, c') -> same_core c c'.
Proof.
  unfold validate_path, bind.
  destruct (_local_weight_path w q c) as [[r c1]|x] eqn:E; [|discriminate].
  apply local_weight_path_core in E.
  assert (K : forall c2, @Returned (unit * Config) (tt, c1) = Returned (u, c2) ->
                         same_core c c2).
  { intros c2 H. injection H as _ <-. exact E. }
  destruct (found r); [apply K|].
  destruct (repo_type repo) as [[|]|]; try discriminate.
  destruct (file_exists w repo q); [apply K | discriminate].
Qed.

Lemma validate_paths_core (w : World) (repo : HuggingFaceRepo)
    (paths : list string) (c c' : Config) (u : unit) :
  validate_paths w repo paths c = Returned (u, c') -> same_core c c'.
Proof.
  revert c. induction paths as [|q qs IH]; intros c.
  - cbn. unfold ret. intros H. injection H as _ <-. auto.
  - cbn [validate_paths]. unfold bind at 1.
    destruct (validate_path w repo q c) as [[u1 c1]|x] eqn:E; [|discriminate].
    intros H. apply validate_path_core in E. apply IH in H.
    eapply same_core_trans; eassumption.
Qed.

Lemma final_validation_core (w : World) (c c' : Config) (u : unit) :
  _validate_final_architecture_model_path_weight_path w c = Returned (u, c') ->
  same_core c c'.
Proof.
  unfold _validate_final_architecture_model_path_weight_path, bind, get.
  destruct (weight_path c) as [|q qs] eqn:Hw; [discriminate|].
  destruct (huggingface_weights_repo w c) as [[repo c1]|x] eqn:E; [|discriminate].
  intros H. apply repo_access_core in E. apply validate_paths_core in H.
  eapply same_core_trans; eassumption.
Qed.

Lemma check_devices_state (w : World) (enc : SupportedEncoding)
    (l : list SupportedEncoding) (devices : list DeviceSpec) (c c' : Config)
    (u : unit) :
  check_devices w enc l devices c = Returned (u, c') -> c' = c.
Proof.
  induction devices as [|d ds IH]; cbn.
  - unfold ret. intros H. now injection H as _ <-.
  - destruct (supported_on w enc d); cbn [negb]; [exact IH | discriminate].
Qed.

Lemma device_compatibility_returns (w : World) (l : list SupportedEncoding)
    (c c' : Config) (u : unit) :
  _validate_quantization_encoding_device_compatibility w l c = Returned (u, c') ->
  c' = c /\ quantization_encoding c <> None.
Proof.
  unfold _validate_quantization_encoding_device_compatibility, bind, get.
  destruct (quantization_encoding c) as [enc|]; [|discriminate].
  intros H. apply check_devices_state in H. split; [assumption | discriminate].
Qed.

Lemma finalize_encoding_core (w : World) (c c' : Config) (u : unit) :
  _finalize_encoding_config w c = Returned (u, c') -> same_core c c'.
Proof.
  unfold _finalize_encoding_config, bind, get.
  assert (K : forall c2, @Returned (unit * Config) (tt, c) = Returned (u, c2) ->
                         same_core c c2).
  { intros c2 H. injection H as _ <-. auto. }
  destruct (quantization_encoding c) as [[| | | | |]|]; try apply K.
  destruct (from_pretrained w _ _ _) as [hf|x]; [|discriminate].
  destruct (torch_dtype_is_float16 hf); cbn [negb]; [|discriminate].
  unfold modify. intros H. injection H as _ <-. repeat split.
Qed.

Lemma kv_cache_strategy_core
    (se : list (SupportedEncoding * list KVCacheStrategy)) (c c' : Config)
    (u : unit) :
  _resolve_kv_cache_strategy se c = Returned (u, c') -> same_core c c'.
Proof.
  unfold _resolve_kv_cache_strategy, bind, get.
  destruct (quantization_encoding c) as [enc|]; [|discriminate].
  destruct (dict_get _ _ _) as [|first rest].
  - unfold ret. intros H. injection H as _ <-. auto.
  - destruct (KVCacheStrategy_eqb _ _);
      [|destruct (negb _)]; unfold modify, ret; intros H; injection H as _ <-;
      repeat split.
Qed.

(** [_resolve_weight_path] returns only with a weight path. *)
Lemma resolve_weight_path_returns (w : World) (f : WeightsFormat)
    (c c' : Config) (u : unit) :
  _resolve_weight_path w f c = Returned (u, c') ->
  weight_path c' <> [] /\ quantization_encoding c' = quantization_encoding c /\
  model_path c' = model_path c.
Proof.
  unfold _resolve_weight_path. unfold bind at 1. unfold get at 1.
  destruct (quantization_encoding c) as [enc|] eqn:Hq; [|discriminate].
  unfold bind at 1.
  match goal with
  | |- match ?m c with _ => _ end = _ -> _ =>
      destruct (m c) as [[u1 c1]|x] eqn:E; [|discriminate]
  end.
  assert (Hc1 : quantization_encoding c1 = Some enc /\ model_path c1 = model_path c).
  { destruct (weight_path c) as [|q qs].
    - unfold bind in E.
      destruct (huggingface_weights_repo w c) as [[repo c2]|y] eqn:Er;
        [|discriminate].
      apply repo_access_core in Er. destruct Er as (_ & Eq & Em).
      rewrite Hq in Eq.
      destruct (dict_get _ _ _) as [|a b].
      + destruct (files_for_encoding w repo enc _) as [|[k files] r'];
          unfold ret, modify in E; injection E as _ <-; split; assumption.
      + unfold modify in E. injection E as _ <-. split; assumption.
    - unfold ret in E. injection E as _ <-. split; [assumption | reflexivity]. }
  unfold bind, get. destruct (weight_path c1) as [|q qs] eqn:Hw.
  - destruct (negb _); [|discriminate].
    destruct (huggingface_weights_repo w c1) as [[repo c2]|y]; discriminate.
  - unfold ret. intros H. injection H as _ <-. rewrite Hw.
    destruct Hc1 as [-> ->]. repeat split. discriminate.
Qed.

(** When [resolve()] followed by
    [validate_and_resolve_with_set_quantization_encoding] returns, the
    weight path is not empty and the encoding is set. *)
Lemma resolution_returns_weights_and_encoding
    (w : World) (c : MAXModelConfig WeightPathArg)
    (se : list (SupportedEncoding * list KVCacheStrategy)) (f : WeightsFormat)
    (c' : Config) :
  resolve_then_validate w c se f = Returned c' ->
  weight_path c' <> [] /\ quantization_encoding c' <> None.
Proof.
  unfold resolve_then_validate.
  destruct (resolve w c) as [c1|x]; [|discriminate].
  destruct (validate_and_resolve_with_set_quantization_encoding w se f c1)
    as [[u c2]|x] eqn:E; [|discriminate].
  intros H. injection H as <-. revert E.
  unfold validate_and_resolve_with_set_quantization_encoding.
  unfold bind at 1.
  destruct (_validate_quantization_encoding_device_compatibility w _ c1)
    as [[u1 ca]|x] eqn:E1; [|discriminate].
  apply device_compatibility_returns in E1. destruct E1 as [-> Hq].
  unfold bind at 1.
  destruct (_finalize_encoding_config w c1) as [[u2 cb]|x] eqn:E2; [|discriminate].
  apply finalize_encoding_core in E2. destruct E2 as (_ & Eq2 & _).
  unfold bind at 1.
  destruct (_resolve_weight_path w f cb) as [[u3 cc]|x] eqn:E3; [|discriminate].
  apply resolve_weight_path_returns in E3. destruct E3 as (Hw3 & Eq3 & _).
  unfold bind at 1.
  destruct (_resolve_kv_cache_strategy se cc) as [[u4 cd]|x] eqn:E4; [|discriminate].
  apply kv_cache_strategy_core in E4. destruct E4 as (Ew4 & Eq4 & _).
  intros E5. apply final_validation_core in E5. destruct E5 as (Ew5 & Eq5 & _).
  split; congruence.
Qed.


(** * Further properties of the resolution *)

(** ** What [resolve] returns and raises *)

Lemma split_repo_id_inv (w : World) (model : string) (rid : option string)
    (p : string) :
  match split_repo_id w model rid p with
  | Returned (_, rid') =>
      rid' = rid \/
      exists repo file, rid' = Some repo /\ hub_file_exists w repo file = true
  | Raised x => x = raise_ ValueError UnableToDeriveModelPath /\ model = ""
  end.
Proof.
  unfold split_repo_id.
  destruct (PyStr.split "/" p) as [|a l] eqn:Hs; [now left|].
  destruct (3 <=? length (a :: l))%nat.
  - cbv zeta. destruct (negb (model =? "") && _); [now left|].
    destruct (hub_file_exists w _ _) eqn:Hh; [|now left].
    right. eexists _, _. split; [reflexivity | exact Hh].
  - destruct (model =? "") eqn:E; [|now left].
    apply String.eqb_eq in E. now split.
Qed.

Lemma normalize_entry_inv (w : World) (model : string) (rid : option string)
    (e : Entry) :
  match normalize_entry w model rid e with
  | Returned (_, rid') =>
      e <> EOther /\
      (rid' = rid \/
       exists repo file, rid' = Some repo /\ hub_file_exists w repo file = true)
  | Raised x =>
      (x = raise_ ValueError WeightPathNotStrOrPath /\ e = EOther) \/
      (x = raise_ ValueError UnableToDeriveModelPath /\ model = "")
  end.
Proof.
  destruct e as [s|p|]; cbn [normalize_entry].
  - pose proof (split_repo_id_inv w model rid (PyStr.Path s)) as H.
    destruct (split_repo_id w model rid (PyStr.Path s)) as [[q r]|x].
    + split; [discriminate | exact H].
    + now right.
  - destruct (is_file w p).
    + split; [discriminate | now left].
    + pose proof (split_repo_id_inv w model rid p) as H.
      destruct (split_repo_id w model rid p) as [[q r]|x].
      * split; [discriminate | exact H].
      * now right.
  - now left.
Qed.

(** The loop of [resolve]: one path per entry, no entry of another type,
    and a repository id that is the one it started with or one the hub
    confirmed. *)
Lemma normalize_returns (w : World) (model : string) (l : list Entry) :
  forall rid ps rid',
    normalize w model rid l = Returned (ps, rid') ->
    length ps = length l /\ ~ In EOther l /\
    (rid' = rid \/
     exists repo file, rid' = Some repo /\ hub_file_exists w repo file = true).
Proof.
  induction l as [|e l IH]; intros rid ps rid'; cbn [normalize].
  - intros H. injection H as <- <-. repeat split; [tauto | now left].
  - pose proof (normalize_entry_inv w model rid e) as He.
    destruct (normalize_entry w model rid e) as [[p r1]|x]; [|discriminate].
    destruct He as [Hne Hr1].
    destruct (normalize w model r1 l) as [[qs r2]|x] eqn:E; [|discriminate].
    intros H. injection H as <- <-.
    destruct (IH _ _ _ E) as (Hlen & Hno & Hr2).
    repeat split.
    + cbn. now rewrite Hlen.
    + intros [H | H]; [now apply Hne | now apply Hno].
    + destruct Hr2 as [-> | Hr2]; [exact Hr1 | now right].
Qed.

Lemma normalize_raises (w : World) (model : string) (l : list Entry) :
  forall rid x,
    normalize w model rid l = Raised x ->
    x = raise_ ValueError WeightPathNotStrOrPath \/
    (x = raise_ ValueError UnableToDeriveModelPath /\ model = "").
Proof.
  induction l as [|e l IH]; intros rid x; cbn [normalize]; [discriminate|].
  pose proof (normalize_entry_inv w model rid e) as He.
  destruct (normalize_entry w model rid e) as [[p r1]|y].
  - destruct (normalize w model r1 l) as [[qs r2]|y] eqn:E; [discriminate|].
    intros H. injection H as <-. exact (IH _ _ E).
  - intros H. injection H as <-. destruct He as [[-> _] | [-> ->]]; tauto.
Qed.

Lemma normalize_other_raises (w : World) (model : string) (l : list Entry) :
  In EOther l -> forall rid, exists x, normalize w model rid l = Raised x.
Proof.
  intros Hin rid.
  destruct (normalize w model rid l) as [[ps r]|x] eqn:E; [|now exists x].
  apply normalize_returns in E. destruct E as (_ & Hno & _). contradiction.
Qed.

(** What [resolve] has done when it returns. *)
Lemma resolve_returns (w : World) (c : MAXModelConfig WeightPathArg) (c' : Config) :
  resolve w c = Returned c' ->
  devices_exist w (device_specs c) = true /\
  normalize w (model_path c) (_weights_repo_id c) (as_list (weight_path c))
    = Returned (weight_path c', _weights_repo_id c') /\
  (model_path c' = model_path c \/
   (model_path c = "" /\ weight_path c' <> [] /\
    _weights_repo_id c' = Some (model_path c'))) /\
  (weight_path c' = [] ->
   model_path c <> "" /\
   (path_exists w (model_path c) = true \/
    repo_exists_with_retry w (model_path c) = true)) /\
  quantization_encoding c' = quantization_encoding c /\
  device_specs c' = device_specs c /\
  _kv_cache_config c' = _kv_cache_config c.
Proof.
  unfold resolve.
  destruct (devices_exist w (device_specs c)); cbn [negb]; [|discriminate].
  destruct (normalize w _ _ _) as [[ps rid]|x]; [|discriminate].
  destruct ps as [|p ps]; cbn [length Nat.eqb].
  - destruct (model_path c =? "") eqn:Em; [discriminate|].
    destruct (path_exists w (model_path c)) eqn:Ep;
      [|destruct (repo_exists_with_retry w (model_path c)) eqn:Er];
      cbn [negb andb]; try discriminate;
      intros H; injection H as <-; cbn;
      apply String.eqb_neq in Em; repeat split; auto.
  - destruct rid as [r|]; [destruct (model_path c =? "") eqn:Em|];
      intros H; injection H as <-; cbn; repeat split; auto; try discriminate.
    right. apply String.eqb_eq in Em. repeat split; [assumption | discriminate].
Qed.

Definition hub_world : World :=
  Fixtures.world ["local/llama-q4_k.gguf"]
    [("acme/llama-x", ["llama-q4_k.gguf"]); ("org2/repo2", ["file.safetensors"])]
    [q4_k] [].


(** X2: a weight path with an entry that is neither a string nor a path
    is never accepted: when [resolve] returns, every entry it was given
    was a string or a path. *)
Theorem resolve_rejects_other_types
    (w : World) (c : MAXModelConfig WeightPathArg) (c' : Config) :
  resolve w c = Returned c' ->
  Forall (fun e => exists s, e = EStr s \/ e = EPath s) (as_list (weight_path c)).
Proof.
  intros H. apply resolve_returns in H. destruct H as (_ & E & _).
  apply normalize_returns in E. destruct E as (_ & Hno & _).
  apply Forall_forall. intros e He.
  destruct e as [s|s|]; [exists s; now left | exists s; now right | contradiction].
Qed.

Lemma resolve_rejects_other_types_witness :
  Forall (fun e => exists s, e = EStr s \/ e = EPath s)
    [EStr "llama-q4_k.gguf"; EPath "local/llama-q4_k.gguf"].
Proof.
  exact (resolve_rejects_other_types hub_world
           (Fixtures.config "acme/llama-x"
              (ArgTuple [EStr "llama-q4_k.gguf"; EPath "local/llama-q4_k.gguf"])
              None [Fixtures.cpu0]) _ eq_refl).
Defined.

(** X3: [resolve] returns one path for each entry it was given, whether
    they came as a list, a tuple or a single value. *)
Theorem resolve_keeps_length
    (w : World) (c : MAXModelConfig WeightPathArg) (c' : Config) :
  resolve w c = Returned c' ->
  length (weight_path c') = length (as_list (weight_path c)).
Proof.
  intros H. apply resolve_returns in H. destruct H as (_ & E & _).
  apply normalize_returns in E. tauto.
Qed.

Lemma resolve_keeps_length_witness :
  exists c',
    resolve hub_world
      (Fixtures.config "acme/llama-x" (ArgSingle (EStr "llama-q4_k.gguf")) None
         [Fixtures.cpu0]) = Returned c' /\
    length (weight_path c') = 1%nat.
Proof.
  eexists. split; [reflexivity|].
  exact (resolve_keeps_length hub_world
           (Fixtures.config "acme/llama-x" (ArgSingle (EStr "llama-q4_k.gguf"))
              None [Fixtures.cpu0]) _ eq_refl).
Defined.

(** X4: [resolve] never changes a [model_path] that is given; an empty
    one stays empty or becomes the repository id taken from a weight
    path, which is then also [_weights_repo_id]. *)
Theorem resolve_model_path
    (w : World) (c : MAXModelConfig WeightPathArg) (c' : Config) :
  resolve w c = Returned c' ->
  (model_path c <> "" -> model_path c' = model_path c) /\
  (model_path c = "" ->
   model_path c' = "" \/ _weights_repo_id c' = Some (model_path c')).
Proof.
  intros H. apply resolve_returns in H.
  destruct H as (_ & _ & [Hm | (Hm & _ & Hr)] & _); split; intros Hc.
  - exact Hm.
  - left. now rewrite Hm.
  - contradiction.
  - now right.
Qed.

Lemma resolve_model_path_witness :
  exists c',
    resolve hub_world
      (Fixtures.config "" (ArgList [EStr "org2/repo2/file.safetensors"]) None
         [Fixtures.cpu0]) = Returned c' /\
    model_path c' = "org2/repo2" /\ _weights_repo_id c' = Some "org2/repo2".
Proof.
  eexists. split; [reflexivity|].
  destruct (proj2 (resolve_model_path hub_world
                     (Fixtures.config ""
                        (ArgList [EStr "org2/repo2/file.safetensors"]) None
                        [Fixtures.cpu0]) _ eq_refl) eq_refl) as [H | H].
  - discriminate H.
  - split; [reflexivity | exact H].
Defined.

(** X5: [resolve] sets [_weights_repo_id] only to a repository in which
    the hub confirmed a file; otherwise it is left as it was. *)
Theorem resolve_weights_repo_id_confirmed
    (w : World) (c : MAXModelConfig WeightPathArg) (c' : Config) :
  resolve w c = Returned c' ->
  _weights_repo_id c' = _weights_repo_id c \/
  exists repo file,
    _weights_repo_id c' = Some repo /\ hub_file_exists w repo file = true.
Proof.
  intros H. apply resolve_returns in H. destruct H as (_ & E & _).
  apply normalize_returns in E. tauto.
Qed.

Lemma resolve_weights_repo_id_confirmed_witness :
  exists c',
    resolve hub_world
      (Fixtures.config "acme/llama-x" (ArgList [EStr "nobody/nothing/f.gguf"])
         None [Fixtures.cpu0]) = Returned c' /\
    _weights_repo_id c' = None /\ weight_path c' = ["nobody/nothing/f.gguf"].
Proof.
  eexists. split; [reflexivity|].
  destruct (resolve_weights_repo_id_confirmed hub_world
              (Fixtures.config "acme/llama-x"
                 (ArgList [EStr "nobody/nothing/f.gguf"]) None [Fixtures.cpu0])
              _ eq_refl) as [H | (repo & file & H & _)].
  - split; [exact H | reflexivity].
  - discriminate H.
Defined.

(** X6: with no weight path and devices that exist, [resolve] returns
    exactly when [model_path] is not empty and is a local path or a
    repository of the hub. *)
Theorem resolve_without_weight_path
    (w : World) (c : MAXModelConfig WeightPathArg) :
  devices_exist w (device_specs c) = true ->
  as_list (weight_path c) = [] ->
  ((exists c', resolve w c = Returned c') <->
   model_path c <> "" /\
   (path_exists w (model_path c) = true \/
    repo_exists_with_retry w (model_path c) = true)).
Proof.
  intros Hd Hw. split.
  - intros [c' H]. apply resolve_returns in H.
    destruct H as (_ & E & _ & Hempty & _).
    rewrite Hw in E. cbn in E. injection E as E _. symmetry in E. auto.
  - intros [Hm Hex]. unfold resolve. rewrite Hd, Hw. cbn.
    apply String.eqb_neq in Hm. rewrite Hm.
    destruct Hex as [-> | ->]; cbn; rewrite ?andb_false_r;
      eexists; reflexivity.
Qed.

Lemma resolve_without_weight_path_witness :
  (exists c',
     resolve hub_world
       (Fixtures.config "acme/llama-x" (ArgList []) None [Fixtures.gpu0])
     = Returned c') /\
  ~ (exists c',
       resolve hub_world
         (Fixtures.config "acme/unknown" (ArgList []) None [Fixtures.gpu0])
       = Returned c').
Proof.
  split.
  - apply (proj2 (resolve_without_weight_path hub_world
                    (Fixtures.config "acme/llama-x" (ArgList []) None
                       [Fixtures.gpu0]) eq_refl eq_refl)).
    split; [discriminate | right; reflexivity].
  - intros H.
    apply (proj1 (resolve_without_weight_path hub_world
                    (Fixtures.config "acme/unknown" (ArgList []) None
                       [Fixtures.gpu0]) eq_refl eq_refl)) in H.
    destruct H as [_ [H | H]]; discriminate H.
Defined.

(** X7: [resolve] reports the devices, with those asked for and those
    found, exactly when the device check fails; nothing else in it
    raises that message. *)
Theorem resolve_device_error
    (w : World) (c : MAXModelConfig WeightPathArg) :
  devices_exist w (device_specs c) = false <->
  resolve w c =
    Raised (raise_ ValueError
              (DeviceSpecsDoNotExist (device_specs c) (scan_available_devices w))).
Proof.
  split.
  - intros Hd. unfold resolve. rewrite Hd. reflexivity.
  - unfold resolve.
    destruct (devices_exist w (device_specs c)); cbn [negb]; [|reflexivity].
    destruct (normalize w _ _ _) as [[ps rid]|y] eqn:E.
    + destruct (length ps =? 0)%nat.
      * destruct (model_path c =? ""); [discriminate|].
        destruct (negb _ && negb _); discriminate.
      * destruct rid; [destruct (model_path c =? "")|]; discriminate.
    + apply normalize_raises in E. destruct E as [-> | [-> _]]; discriminate.
Qed.

(** ** What the inference of the encoding returns and raises *)

Ltac returned H := injection H as _ <-; cbn.

Lemma check_given_encoding_returns (w : World) (w0 : string)
    (given : SupportedEncoding) (c c' : Config) (u : unit) :
  check_given_encoding w w0 given c = Returned (u, c') ->
  c' = c \/ c' = accessed w c.
Proof.
  unfold check_given_encoding, bind.
  destruct (path_exists w w0).
  - unfold ret. destruct (parse_from_file_name w w0) as [fe|];
      [destruct (negb _); [discriminate|]|]; intros H; injection H as _ <-;
      now left.
  - rewrite huggingface_weights_repo_eq. unfold ret.
    destruct (encoding_for_file w _ w0) as [fe|];
      [destruct (negb _); [discriminate|]|]; intros H; injection H as _ <-;
      now right.
Qed.

Lemma infer_encoding_returns (w : World) (w0 : string) (c c' : Config) (u : unit) :
  infer_encoding w w0 c = Returned (u, c') ->
  weight_path c' = weight_path c /\ model_path c' = model_path c /\
  ((exists enc, quantization_encoding c' = Some enc /\
                (if path_exists w w0 then parse_from_file_name w w0
                 else encoding_for_file w (weights_repo w c) w0) = Some enc) \/
   (c' = c /\ path_exists w w0 = true /\ PyStr.suffix w0 <> ".safetensors" /\
    parse_from_file_name w w0 = None)).
Proof.
  unfold infer_encoding, bind.
  destruct (path_exists w w0).
  - destruct (PyStr.suffix w0 =? ".safetensors") eqn:Es; [discriminate|].
    apply String.eqb_neq in Es.
    destruct (parse_from_file_name w w0) as [enc|].
    + unfold modify. intros H. returned H. repeat split. left. now exists enc.
    + unfold ret. intros H. injection H as _ <-. repeat split. now right.
  - rewrite huggingface_weights_repo_eq.
    destruct (accessed_fields w c) as (Hw & _ & _ & Hm & _).
    destruct (encoding_for_file w _ w0) as [enc|]; [|discriminate].
    unfold modify. intros H. returned H. repeat split; try assumption.
    left. now exists enc.
Qed.

Lemma default_encoding_choice_returns (w : World) (d : SupportedEncoding)
    (c c' : Config) (u : unit) :
  default_encoding_choice w d c = Returned (u, c') ->
  weight_path c' = weight_path c /\ model_path c' = model_path c /\
  exists enc, quantization_encoding c' = Some enc.
Proof.
  unfold default_encoding_choice, bind. rewrite huggingface_weights_repo_eq.
  destruct (accessed_fields w c) as (Hw & _ & _ & Hm & _).
  assert (K : forall c1,
             (c1 <- get ;;
              match device_specs c1 with
              | [] => throw IndexError ListIndexOutOfRange
              | dv :: _ =>
                  if negb (device_type dv =? "cpu")
                     && encoding_in bfloat16 (supported_encodings w (weights_repo w c))
                  then modify (set_quantization_encoding (Some bfloat16))
                  else modify (emit (Debug (UsingDefaultEncoding d))) ;;;
                       modify (set_quantization_encoding (Some d))
              end) c1 = Returned (u, c') ->
             weight_path c' = weight_path c1 /\ model_path c' = model_path c1 /\
             exists enc, quantization_encoding c' = Some enc).
  { intros c1. unfold bind, get.
    destruct (device_specs c1) as [|dv ds]; [discriminate|].
    destruct (negb _ && _); unfold modify; intros H; returned H;
      repeat split; eexists; reflexivity. }
  destruct (supported_encodings w (weights_repo w c)) as [|a [|b l]].
  - intros H. apply K in H. destruct H as (-> & -> & H). auto.
  - unfold modify. intros H. returned H. repeat split; try assumption.
    eexists; reflexivity.
  - intros H. apply K in H. destruct H as (-> & -> & H). auto.
Qed.

(** The four ways through the first stage. *)
Lemma first_stage_cases (w : World) (d : SupportedEncoding) (c : Config) :
  let run := validate_and_resolve_quantization_encoding_weight_path w d c in
  (exists given, quantization_encoding c = Some given /\
     (run = Returned (tt, c) \/
      exists w0, run = check_given_encoding w w0 given c)) \/
  (quantization_encoding c = None /\
   ((exists w0 rest, weight_path c = w0 :: rest /\
       weights_format w (weight_path c) <> Some pytorch /\
       run = infer_encoding w w0 c) \/
    run = default_encoding_choice w d c)).
Proof.
  unfold validate_and_resolve_quantization_encoding_weight_path, bind, get.
  destruct (quantization_encoding c) as [given|].
  - left. exists given. split; [reflexivity|].
    destruct (weight_path c) as [|w0 rest]; [now left|].
    destruct (not_pytorch _); [right; now exists w0 | now left].
  - right. split; [reflexivity|].
    destruct (weight_path c) as [|w0 rest]; [now right|].
    destruct (not_pytorch _) eqn:Enp; [|now right].
    left. exists w0, rest. repeat split.
    intros Hf. rewrite Hf in Enp. discriminate.
Qed.

Lemma given_encoding_is_kept_core
    (w : World) (d : SupportedEncoding) (c c' : Config) (u : unit) :
  validate_and_resolve_quantization_encoding_weight_path w d c = Returned (u, c') ->
  weight_path c' = weight_path c /\ model_path c' = model_path c /\
  (forall e, quantization_encoding c = Some e -> quantization_encoding c' = Some e).
Proof.
  destruct (accessed_fields w c) as (Hw & Hq & _ & Hm & _).
  destruct (first_stage_cases w d c)
    as [(given & Eq & [-> | (w0 & ->)]) | (Eq & [(w0 & rest & _ & _ & ->) | ->])].
  - intros H. injection H as _ <-. auto.
  - intros H. apply check_given_encoding_returns in H.
    destruct H as [-> | ->]; [auto|]. repeat split; try assumption.
    intros e He. congruence.
  - intros H. apply infer_encoding_returns in H. destruct H as (H1 & H2 & _).
    repeat split; try assumption. intros e He. congruence.
  - intros H. apply default_encoding_choice_returns in H.
    destruct H as (H1 & H2 & _).
    repeat split; try assumption. intros e He. congruence.
Qed.

(** X8: the first stage never changes the weight path or the model
    path, and an encoding that was given is still the encoding when it
    returns. *)
Theorem given_encoding_is_kept
    (w : World) (d : SupportedEncoding) (c c' : Config) (u : unit) :
  validate_and_resolve_quantization_encoding_weight_path w d c = Returned (u, c') ->
  weight_path c' = weight_path c /\ model_path c' = model_path c /\
  (forall e, quantization_encoding c = Some e -> quantization_encoding c' = Some e).
Proof. exact (given_encoding_is_kept_core w d c c' u). Qed.

Lemma given_encoding_is_kept_witness :
  exists c',
    validate_and_resolve_quantization_encoding_weight_path hub_world float32
      (Fixtures.config "acme/llama-x" ["llama-q4_k.gguf"] (Some q4_k)
         [Fixtures.cpu0]) = Returned (tt, c') /\
    quantization_encoding c' = Some q4_k.
Proof.
  eexists. split; [cbv; reflexivity|].
  exact (proj2 (proj2 (given_encoding_is_kept hub_world float32
                         (Fixtures.config "acme/llama-x" ["llama-q4_k.gguf"]
                            (Some q4_k) [Fixtures.cpu0]) _ tt eq_refl))
           q4_k eq_refl).
Defined.

(** X9: the first stage returns without an encoding in one case only:
    none was given, the format is not pytorch, and the first weight file
    is a local file, not a [.safetensors] one, whose name tells no
    encoding. *)
Theorem encoding_unset_only_for_local_untagged
    (w : World) (d : SupportedEncoding) (c c' : Config) (u : unit) :
  validate_and_resolve_quantization_encoding_weight_path w d c = Returned (u, c') ->
  quantization_encoding c' = None ->
  exists w0 rest,
    weight_path c = w0 :: rest /\ quantization_encoding c = None /\
    weights_format w (weight_path c) <> Some pytorch /\
    path_exists w w0 = true /\ PyStr.suffix w0 <> ".safetensors" /\
    parse_from_file_name w w0 = None /\ c' = c.
Proof.
  intros Hrun Hnone.
  destruct (first_stage_cases w d c)
    as [(given & Eq & _) | (Eq & [(w0 & rest & Ew & Hf & E) | E])].
  - apply given_encoding_is_kept_core in Hrun. destruct Hrun as (_ & _ & H).
    rewrite (H given Eq) in Hnone. discriminate.
  - rewrite E in Hrun. apply infer_encoding_returns in Hrun.
    destruct Hrun as (_ & _ & [(enc & H & _) | (-> & Hp & Hs & Hn)]);
      [congruence|].
    exists w0, rest. repeat split; assumption.
  - rewrite E in Hrun. apply default_encoding_choice_returns in Hrun.
    destruct Hrun as (_ & _ & enc & H). congruence.
Qed.

Lemma encoding_unset_only_for_local_untagged_witness :
  exists w0 rest,
    weight_path untagged_config = w0 :: rest /\
    quantization_encoding untagged_config = None /\
    weights_format untagged_world (weight_path untagged_config) <> Some pytorch /\
    path_exists untagged_world w0 = true /\ PyStr.suffix w0 <> ".safetensors" /\
    parse_from_file_name untagged_world w0 = None /\
    untagged_config = untagged_config.
Proof.
  exact (encoding_unset_only_for_local_untagged untagged_world float32
           untagged_config untagged_config tt eq_refl eq_refl).
Defined.

(** X10: with at least one device, whatever the first stage raises is a
    [ValueError]. *)
Theorem first_stage_raises_only_ValueError
    (w : World) (d : SupportedEncoding) (c : Config) (x : Exc) :
  device_specs c <> [] ->
  validate_and_resolve_quantization_encoding_weight_path w d c = Raised x ->
  kind x = ValueError.
Proof.
  intros Hdev.
  destruct (accessed_fields w c) as (_ & _ & Hd & _).
  destruct (first_stage_cases w d c)
    as [(given & Eq & [-> | (w0 & ->)]) | (Eq & [(w0 & rest & _ & _ & ->) | ->])].
  - discriminate.
  - unfold check_given_encoding, bind.
    destruct (path_exists w w0).
    + unfold ret. destruct (parse_from_file_name w w0) as [fe|];
        [destruct (negb _)|]; try discriminate.
      intros H. now injection H as <-.
    + rewrite huggingface_weights_repo_eq. unfold ret.
      destruct (encoding_for_file w _ w0) as [fe|];
        [destruct (negb _)|]; try discriminate.
      intros H. now injection H as <-.
  - unfold infer_encoding, bind.
    destruct (path_exists w w0).
    + destruct (PyStr.suffix w0 =? ".safetensors");
        [intros H; now injection H as <-|].
      destruct (parse_from_file_name w w0); discriminate.
    + rewrite huggingface_weights_repo_eq.
      destruct (encoding_for_file w _ w0); [discriminate|].
      intros H. now injection H as <-.
  - unfold default_encoding_choice, bind. rewrite huggingface_weights_repo_eq.
    destruct (supported_encodings w _) as [|a [|b l]]; try discriminate;
      unfold get; rewrite Hd; destruct (device_specs c) as [|dv ds];
      try contradiction; destruct (negb _ && _); discriminate.
Qed.

Lemma first_stage_raises_only_ValueError_witness :
  kind (raise_ ValueError (EncodingCannotBeInferred "weights.gguf")) = ValueError.
Proof.
  refine (first_stage_raises_only_ValueError
            (Fixtures.world [] [] [] []) float32
            (Fixtures.config "acme/llama-x" ["weights.gguf"] None [Fixtures.cpu0])
            _ _ eq_refl).
  discriminate.
Defined.

(** X11: with a weight path, no encoding and a format that is not
    pytorch, the encoding read for the first weight file (from its name
    if the file exists, from the repository otherwise) is adopted and
    logged, unless the file is a local [.safetensors] file. *)
Theorem inferred_encoding_is_adopted
    (w : World) (d : SupportedEncoding) (c : Config) (w0 : string)
    (rest : list string) (enc : SupportedEncoding) :
  weight_path c = w0 :: rest -> quantization_encoding c = None ->
  weights_format w (weight_path c) <> Some pytorch ->
  (if path_exists w w0 then parse_from_file_name w w0
   else encoding_for_file w (weights_repo w c) w0) = Some enc ->
  path_exists w w0 = false \/ PyStr.suffix w0 <> ".safetensors" ->
  exists c',
    validate_and_resolve_quantization_encoding_weight_path w d c
      = Returned (tt, c') /\
    quantization_encoding c' = Some enc /\
    logged c' = Debug (EncodingInferred enc) :: logged c.
Proof.
  intros Hw Hq Hf Henc Hs.
  rewrite (weights_no_encoding w d c w0 rest Hw Hq Hf).
  unfold infer_encoding, bind.
  destruct (path_exists w w0).
  - destruct Hs as [Hs | Hs]; [discriminate|].
    apply String.eqb_neq in Hs. rewrite Hs, Henc.
    eexists. split; [reflexivity|]. split; reflexivity.
  - rewrite huggingface_weights_repo_eq, Henc.
    destruct (accessed_fields w c) as (_ & _ & _ & _ & _ & Hl).
    eexists. split; [reflexivity|]. split; [reflexivity|]. cbn. now rewrite Hl.
Qed.

Lemma inferred_encoding_is_adopted_witness :
  exists c',
    validate_and_resolve_quantization_encoding_weight_path hub_world float32
      (Fixtures.config "acme/llama-x" ["llama-q4_k.gguf"] None [Fixtures.cpu0])
      = Returned (tt, c') /\
    quantization_encoding c' = Some q4_k /\
    logged c' = [Debug (EncodingInferred q4_k)].
Proof.
  apply (inferred_encoding_is_adopted hub_world float32
           (Fixtures.config "acme/llama-x" ["llama-q4_k.gguf"] None
              [Fixtures.cpu0])
           "llama-q4_k.gguf" [] q4_k eq_refl eq_refl).
  - cbn; discriminate.
  - reflexivity.
  - left; reflexivity.
Defined.

(** X26: with no encoding given and a format that is not pytorch, a
    first weight file that exists locally and has the suffix
    [.safetensors] makes the first stage raise the [ValueError] that asks
    for an encoding. *)
Theorem local_safetensors_without_encoding_refused
    (w : World) (default_encoding : SupportedEncoding) (c : Config)
    (w0 : string) (rest : list string) :
  weight_path c = w0 :: rest -> quantization_encoding c = None ->
  weights_format w (weight_path c) <> Some pytorch ->
  path_exists w w0 = true -> PyStr.suffix w0 = ".safetensors" ->
  validate_and_resolve_quantization_encoding_weight_path w default_encoding c =
    Raised (raise_ ValueError LocalSafetensorsNeedsEncoding).
Proof. exact (local_safetensors_needs_encoding w default_encoding c w0 rest). Qed.

Lemma local_safetensors_without_encoding_refused_witness :
  validate_and_resolve_quantization_encoding_weight_path sharded_world float32
    (Fixtures.config "acme/llama-x" ["model-00001.safetensors"] None
       [Fixtures.gpu0])
  = Raised (raise_ ValueError LocalSafetensorsNeedsEncoding).
Proof.
  apply (local_safetensors_without_encoding_refused sharded_world float32
           (Fixtures.config "acme/llama-x" ["model-00001.safetensors"] None
              [Fixtures.gpu0])
           "model-00001.safetensors" [] eq_refl eq_refl).
  - cbn; discriminate.
  - reflexivity.
  - reflexivity.
Defined.

(** X27: with no encoding given and a format that is not pytorch, a
    first weight file that does not exist locally and for which the
    repository tells no encoding makes the first stage raise a
    [ValueError] that names the file. *)
Theorem remote_file_without_encoding_refused
    (w : World) (default_encoding : SupportedEncoding) (c : Config)
    (w0 : string) (rest : list string) :
  weight_path c = w0 :: rest -> quantization_encoding c = None ->
  weights_format w (weight_path c) <> Some pytorch ->
  path_exists w w0 = false ->
  encoding_for_file w (weights_repo w c) w0 = None ->
  validate_and_resolve_quantization_encoding_weight_path w default_encoding c =
    Raised (raise_ ValueError (EncodingCannotBeInferred w0)).
Proof. exact (remote_inference_failure w default_encoding c w0 rest). Qed.

Lemma remote_file_without_encoding_refused_witness :
  validate_and_resolve_quantization_encoding_weight_path sharded_world float32
    (Fixtures.config "acme/llama-x" ["model-00002.safetensors"] None
       [Fixtures.gpu0])
  = Raised (raise_ ValueError (EncodingCannotBeInferred "model-00002.safetensors")).
Proof.
  apply (remote_file_without_encoding_refused sharded_world float32
           (Fixtures.config "acme/llama-x" ["model-00002.safetensors"] None
              [Fixtures.gpu0])
           "model-00002.safetensors" [] eq_refl eq_refl).
  - cbn; discriminate.
  - reflexivity.
  - reflexivity.
Defined.

(** X28: a list of [Path] entries that are all local files is returned
    by [resolve] as it is, with [_weights_repo_id] as it was, whatever
    [model_path] is; so [resolve] on its own output keeps it again. *)
Theorem local_path_entries_are_kept
    (w : World) (c : MAXModelConfig WeightPathArg) (paths : list string) :
  devices_exist w (device_specs c) = true ->
  weight_path c = ArgList (map EPath paths) -> paths <> [] ->
  Forall (fun p => is_file w p = true) paths ->
  exists c', resolve w c = Returned c' /\ weight_path c' = paths /\
             _weights_repo_id c' = _weights_repo_id c.
Proof. exact (resolve_local_paths w c paths). Qed.

Lemma local_path_entries_are_kept_witness :
  exists c',
    resolve local_weights_world
      (Fixtures.config "" (ArgList (map EPath ["model.gguf"; "org/repo/model.gguf"]))
         None [Fixtures.cpu0]) = Returned c' /\
    weight_path c' = ["model.gguf"; "org/repo/model.gguf"] /\
    _weights_repo_id c' = None.
Proof.
  apply (local_path_entries_are_kept local_weights_world
           (Fixtures.config ""
              (ArgList (map EPath ["model.gguf"; "org/repo/model.gguf"]))
              None [Fixtures.cpu0])
           ["model.gguf"; "org/repo/model.gguf"] eq_refl eq_refl).
  - discriminate.
  - repeat constructor.
Defined.

(** X29: when [resolve] followed by
    [validate_and_resolve_with_set_quantization_encoding] returns, the
    weight path is not empty and the encoding is set. *)
Theorem resolution_returns_with_weights_and_encoding
    (w : World) (c : MAXModelConfig WeightPathArg)
    (se : list (SupportedEncoding * list KVCacheStrategy)) (f : WeightsFormat)
    (c' : Config) :
  resolve_then_validate w c se f = Returned c' ->
  weight_path c' <> [] /\ quantization_encoding c' <> None.
Proof. exact (resolution_returns_weights_and_encoding w c se f c'). Qed.

Definition tagged_weights_world : World :=
  Fixtures.world ["llama-q4_k.gguf"] [("acme/llama-x", ["llama-q4_k.gguf"])]
    [q4_k] [].

Definition tagged_weights_config : MAXModelConfig WeightPathArg :=
  Fixtures.config "acme/llama-x" (ArgList [EPath "llama-q4_k.gguf"]) (Some q4_k)
    [Fixtures.cpu0].

Lemma resolution_returns_with_weights_and_encoding_witness :
  exists c',
    resolve_then_validate tagged_weights_world tagged_weights_config
      [(q4_k, [PAGED])] gguf = Returned c' /\
    weight_path c' <> [] /\ quantization_encoding c' <> None.
Proof.
  eexists. split; [cbv; reflexivity|].
  exact (resolution_returns_with_weights_and_encoding tagged_weights_world
           tagged_weights_config [(q4_k, [PAGED])] gguf _ eq_refl).
Defined.

(** ** The second stage, step by step *)

Lemma check_devices_all (w : World) (enc : SupportedEncoding)
    (l : list SupportedEncoding) (devices : list DeviceSpec) (c : Config) :
  forallb (supported_on w enc) devices = true ->
  check_devices w enc l devices c = Returned (tt, c).
Proof.
  induction devices as [|d ds IH]; cbn; [reflexivity|].
  intros H. apply andb_true_iff in H. destruct H as [-> H]. cbn. auto.
Qed.

Lemma check_devices_first (w : World) (enc : SupportedEncoding)
    (l : list SupportedEncoding) (pre post : list DeviceSpec) (d : DeviceSpec)
    (c : Config) :
  forallb (supported_on w enc) pre = true -> supported_on w enc d = false ->
  check_devices w enc l (pre ++ d :: post) c =
    Raised (raise_ ValueError (EncodingNotCompatible enc (device_type d) l)).
Proof.
  induction pre as [|p ps IH]; cbn.
  - intros _ ->. reflexivity.
  - intros H Hd. apply andb_true_iff in H. destruct H as [-> H]. cbn. auto.
Qed.

(** X12: with the encoding set, the device check returns, with the
    configuration as it was, when every device supports the encoding; at
    the first device that does not, it raises a [ValueError] with the
    encoding, the type of that device and the encodings of the
    architecture. *)
Theorem device_compatibility_first_unsupported
    (w : World) (l : list SupportedEncoding) (c : Config)
    (enc : SupportedEncoding) :
  quantization_encoding c = Some enc ->
  (forallb (supported_on w enc) (device_specs c) = true ->
   _validate_quantization_encoding_device_compatibility w l c = Returned (tt, c)) /\
  (forall pre d post,
     device_specs c = (pre ++ d :: post)%list ->
     forallb (supported_on w enc) pre = true -> supported_on w enc d = false ->
     _validate_quantization_encoding_device_compatibility w l c =
       Raised (raise_ ValueError (EncodingNotCompatible enc (device_type d) l))).
Proof.
  intros Hq.
  unfold _validate_quantization_encoding_device_compatibility, bind, get.
  rewrite Hq. split.
  - apply check_devices_all.
  - intros pre d post ->. apply check_devices_first.
Qed.

Definition no_bfloat16_on_cpu (w : World) : World :=
  {| devices_exist := devices_exist w;
     scan_available_devices := scan_available_devices w;
     is_file := is_file w;
     path_exists := path_exists w;
     path_resolve := path_resolve w;
     hub_file_exists := hub_file_exists w;
     repo_exists_with_retry := repo_exists_with_retry w;
     try_to_load_from_cache := try_to_load_from_cache w;
     from_pretrained := from_pretrained w;
     weights_format := weights_format w;
     parse_from_file_name := parse_from_file_name w;
     supported_on := fun e dv =>
       negb (SupportedEncoding_eqb e bfloat16 && (device_type dv =? "cpu"));
     graph_encoding := graph_encoding w;
     _ALTERNATE_ENCODINGS := _ALTERNATE_ENCODINGS w;
     classify := classify w;
     file_exists := file_exists w;
     encoding_for_file := encoding_for_file w;
     supported_encodings := supported_encodings w;
     files_for_encoding := files_for_encoding w |}.

Lemma device_compatibility_first_unsupported_witness :
  _validate_quantization_encoding_device_compatibility
    (no_bfloat16_on_cpu hub_world) [bfloat16; float32]
    (Fixtures.config "acme/llama-x" [] (Some bfloat16)
       [Fixtures.gpu0; Fixtures.cpu0])
  = Raised (raise_ ValueError
              (EncodingNotCompatible bfloat16 "cpu" [bfloat16; float32])).
Proof.
  apply (proj2 (device_compatibility_first_unsupported
                  (no_bfloat16_on_cpu hub_world) [bfloat16; float32]
                  (Fixtures.config "acme/llama-x" [] (Some bfloat16)
                     [Fixtures.gpu0; Fixtures.cpu0])
                  bfloat16 eq_refl)
           [Fixtures.gpu0] Fixtures.cpu0 []); reflexivity.
Defined.

Lemma resolve_weight_path_choice_core
    (w : World) (f : WeightsFormat) (c : Config) (enc : SupportedEncoding) :
  quantization_encoding c = Some enc ->
  let index := files_for_encoding w (weights_repo w c) enc
                 (_ALTERNATE_ENCODINGS w enc) in
  (weight_path c <> [] -> _resolve_weight_path w f c = Returned (tt, c)) /\
  (forall p ps, weight_path c = [] ->
     dict_get WeightsFormat_eqb f index = p :: ps ->
     _resolve_weight_path w f c =
       Returned (tt, set_weight_path (p :: ps) (accessed w c))) /\
  (forall k p ps others, weight_path c = [] ->
     dict_get WeightsFormat_eqb f index = [] ->
     index = (k, p :: ps) :: others ->
     _resolve_weight_path w f c =
       Returned (tt, set_weight_path (p :: ps) (accessed w c))).
Proof.
  intros Hq index.
  repeat split; [intros Hne | intros p ps Ew Hd | intros k p ps others Ew Hd Hi];
    unfold _resolve_weight_path; unfold bind at 1; unfold get at 1; rewrite Hq.
  - destruct (weight_path c) as [|q qs] eqn:Ew; [contradiction|].
    unfold bind, ret, get. rewrite Ew. reflexivity.
  - rewrite Ew. unfold bind.
    rewrite huggingface_weights_repo_eq. fold index. rewrite Hd. reflexivity.
  - rewrite Ew. unfold bind.
    rewrite huggingface_weights_repo_eq. fold index. rewrite Hd, Hi. reflexivity.
Qed.

(** X13: a weight path that is there is left alone by
    [_resolve_weight_path]; an empty one becomes the repository's files
    of the default format for the encoding, when there are some, and
    otherwise the files of the first format the repository lists. *)
Theorem resolve_weight_path_choice
    (w : World) (f : WeightsFormat) (c : Config) (enc : SupportedEncoding) :
  quantization_encoding c = Some enc ->
  let index := files_for_encoding w (weights_repo w c) enc
                 (_ALTERNATE_ENCODINGS w enc) in
  (weight_path c <> [] -> _resolve_weight_path w f c = Returned (tt, c)) /\
  (forall p ps, weight_path c = [] ->
     dict_get WeightsFormat_eqb f index = p :: ps ->
     _resolve_weight_path w f c =
       Returned (tt, set_weight_path (p :: ps) (accessed w c))) /\
  (forall k p ps others, weight_path c = [] ->
     dict_get WeightsFormat_eqb f index = [] ->
     index = (k, p :: ps) :: others ->
     _resolve_weight_path w f c =
       Returned (tt, set_weight_path (p :: ps) (accessed w c))).
Proof. exact (resolve_weight_path_choice_core w f c enc). Qed.

Definition indexed_world : World :=
  Fixtures.world [] [("acme/llama-x", ["model-00001.safetensors"; "llama.gguf"])]
    [bfloat16; float32]
    [(gguf, ["llama.gguf"]); (safetensors, ["model-00001.safetensors"])].

Lemma resolve_weight_path_choice_witness :
  exists c',
    _resolve_weight_path indexed_world safetensors
      (Fixtures.config "acme/llama-x" [] (Some bfloat16) [Fixtures.gpu0])
    = Returned (tt, c') /\
    weight_path c' = ["model-00001.safetensors"].
Proof.
  eexists. split.
  - apply (proj1 (proj2 (resolve_weight_path_choice indexed_world safetensors
                           (Fixtures.config "acme/llama-x" [] (Some bfloat16)
                              [Fixtures.gpu0])
                           bfloat16 eq_refl))
             "model-00001.safetensors" []); reflexivity.
  - reflexivity.
Defined.

(** X14: when the weight path is empty and the repository lists no file
    for the encoding, [_resolve_weight_path] raises a [ValueError]: the
    one that names the GGUF format and the repository when the encoding
    is neither [bfloat16] nor [float32], the plain one for those two. *)
Theorem resolve_weight_path_no_files
    (w : World) (f : WeightsFormat) (c : Config) (enc : SupportedEncoding) :
  quantization_encoding c = Some enc -> weight_path c = [] ->
  files_for_encoding w (weights_repo w c) enc (_ALTERNATE_ENCODINGS w enc) = [] ->
  _resolve_weight_path w f c =
    Raised (raise_ ValueError
              (if SupportedEncoding_eqb enc bfloat16
                  || SupportedEncoding_eqb enc float32
               then NoWeights enc
               else NoWeightsInGGUF enc (repo_id (weights_repo w c)))).
Proof.
  intros Hq Ew Hi. unfold _resolve_weight_path.
  unfold bind at 1. unfold get at 1. rewrite Hq, Ew. unfold bind.
  rewrite huggingface_weights_repo_eq, Hi. cbn [dict_get]. unfold ret, get.
  destruct (accessed_fields w c) as (Hw & _). rewrite Hw, Ew.
  destruct (accessed_twice w c) as [Hr Ha].
  destruct enc; cbn [negb encoding_in existsb SupportedEncoding_eqb orb];
    cbv beta iota; try reflexivity;
    rewrite huggingface_weights_repo_eq, Hr; reflexivity.
Qed.

Lemma resolve_weight_path_no_files_witness :
  _resolve_weight_path hub_world gguf
    (Fixtures.config "acme/llama-x" [] (Some q6_k) [Fixtures.cpu0])
  = Raised (raise_ ValueError (NoWeightsInGGUF q6_k "acme/llama-x")).
Proof.
  exact (resolve_weight_path_no_files hub_world gguf
           (Fixtures.config "acme/llama-x" [] (Some q6_k) [Fixtures.cpu0])
           q6_k eq_refl eq_refl eq_refl).
Defined.

Lemma kv_strategy_supported_after_core
    (se : list (SupportedEncoding * list KVCacheStrategy)) (c c' : Config)
    (enc : SupportedEncoding) (u : unit) :
  quantization_encoding c = Some enc ->
  dict_get SupportedEncoding_eqb enc se <> [] ->
  _resolve_kv_cache_strategy se c = Returned (u, c') ->
  In (cache_strategy (_kv_cache_config c')) (dict_get SupportedEncoding_eqb enc se).
Proof.
  intros Hq Hne. unfold _resolve_kv_cache_strategy, bind, get. rewrite Hq.
  destruct (dict_get SupportedEncoding_eqb enc se) as [|first rest] eqn:Hl;
    [contradiction|].
  destruct (KVCacheStrategy_eqb _ MODEL_DEFAULT).
  - unfold modify. intros H. returned H. now left.
  - destruct (strategy_in _ (first :: rest)) eqn:Hin; cbn [negb].
    + unfold ret. intros H. injection H as _ <-. now apply strategy_in_In.
    + unfold modify. intros H. returned H. now left.
Qed.

(** X15: when [_resolve_kv_cache_strategy] returns and the caller's
    mapping has strategies for the encoding, the strategy of the
    configuration is one of them. *)
Theorem kv_strategy_supported_after
    (se : list (SupportedEncoding * list KVCacheStrategy)) (c c' : Config)
    (enc : SupportedEncoding) (u : unit) :
  quantization_encoding c = Some enc ->
  dict_get SupportedEncoding_eqb enc se <> [] ->
  _resolve_kv_cache_strategy se c = Returned (u, c') ->
  In (cache_strategy (_kv_cache_config c')) (dict_get SupportedEncoding_eqb enc se).
Proof. exact (kv_strategy_supported_after_core se c c' enc u). Qed.

Lemma kv_strategy_supported_after_witness :
  exists c',
    _resolve_kv_cache_strategy [(q4_k, [PAGED; CONTINUOUS])]
      (Fixtures.config "acme/llama-x" ["llama-q4_k.gguf"] (Some q4_k)
         [Fixtures.cpu0]) = Returned (tt, c') /\
    In (cache_strategy (_kv_cache_config c')) [PAGED; CONTINUOUS].
Proof.
  eexists. split; [cbv; reflexivity|].
  refine (kv_strategy_supported_after [(q4_k, [PAGED; CONTINUOUS])]
            (Fixtures.config "acme/llama-x" ["llama-q4_k.gguf"] (Some q4_k)
               [Fixtures.cpu0]) _ q4_k tt eq_refl _ eq_refl).
  cbn; discriminate.
Defined.

(** X16: resolving the strategy a second time changes nothing, as long
    as [MODEL_DEFAULT] is not itself listed for the encoding. *)
Theorem kv_strategy_resolved_once
    (se : list (SupportedEncoding * list KVCacheStrategy)) (c c' : Config)
    (u : unit) :
  (forall enc, quantization_encoding c = Some enc ->
     ~ In MODEL_DEFAULT (dict_get SupportedEncoding_eqb enc se)) ->
  _resolve_kv_cache_strategy se c = Returned (u, c') ->
  _resolve_kv_cache_strategy se c' = Returned (tt, c').
Proof.
  intros Hmd Hrun. unfold _resolve_kv_cache_strategy, bind, get in Hrun.
  destruct (quantization_encoding c) as [enc|] eqn:Hq; [|discriminate].
  specialize (Hmd enc eq_refl).
  assert (Hdone : forall c1,
            quantization_encoding c1 = Some enc ->
            (dict_get SupportedEncoding_eqb enc se = [] \/
             (cache_strategy (_kv_cache_config c1) <> MODEL_DEFAULT /\
              In (cache_strategy (_kv_cache_config c1))
                 (dict_get SupportedEncoding_eqb enc se))) ->
            _resolve_kv_cache_strategy se c1 = Returned (tt, c1)).
  { intros c1 H1 H2. eapply kv_unchanged; eassumption. }
  destruct (dict_get SupportedEncoding_eqb enc se) as [|first rest] eqn:Hl.
  - injection Hrun as _ <-. apply Hdone; [assumption | now left].
  - assert (Hfirst : first <> MODEL_DEFAULT).
    { intros ->. apply Hmd. now left. }
    destruct (KVCacheStrategy_eqb _ MODEL_DEFAULT) eqn:Hcur.
    + unfold modify in Hrun. injection Hrun as _ <-.
      apply Hdone; [exact Hq | right; split; [exact Hfirst | now left]].
    + destruct (strategy_in _ (first :: rest)) eqn:Hc; cbn [negb] in Hrun.
      * injection Hrun as _ <-. apply Hdone; [exact Hq|]. right. split.
        -- intros E. rewrite E in Hcur. discriminate.
        -- now apply strategy_in_In.
      * unfold modify in Hrun. injection Hrun as _ <-.
        apply Hdone; [exact Hq | right; split; [exact Hfirst | now left]].
Qed.

Lemma kv_strategy_resolved_once_witness :
  exists c',
    _resolve_kv_cache_strategy [(q4_k, [PAGED])] continuous_q4k
      = Returned (tt, c') /\
    _resolve_kv_cache_strategy [(q4_k, [PAGED])] c' = Returned (tt, c').
Proof.
  eexists. split; [cbv; reflexivity|].
  refine (kv_strategy_resolved_once [(q4_k, [PAGED])] continuous_q4k _ tt
            _ eq_refl).
  intros enc He. injection He as <-. cbn. intros [Hp | []]. discriminate Hp.
Defined.

(** ** [_local_weight_path] *)

(** X17: once the repository has been read, a path that is a file
    that exists is returned resolved by [_local_weight_path], whatever
    the Hugging Face cache holds for it; for a path that is not, an
    online repository and the mark of a file known to be absent in the
    cache make it raise a [FileNotFoundError], and a local repository
    makes it return nothing without looking at the cache. *)
Theorem local_weight_path_raises
    (w : World) (q : string) (c : Config) (repo : HuggingFaceRepo) :
  huggingface_weights_repo_cache c = Some repo ->
  (path_exists w q = true -> is_file w q = true ->
   _local_weight_path w q c = Returned (Some (path_resolve w q), c)) /\
  (path_exists w q && is_file w q = false -> repo_type repo = Some online ->
   try_to_load_from_cache w (repo_id repo) q (revision repo) = CachedNoExist ->
   _local_weight_path w q c =
     Raised (raise_ FileNotFoundError (CachedNonExistent q))) /\
  (path_exists w q && is_file w q = false -> repo_type repo = Some local ->
   _local_weight_path w q c = Returned (None, c)).
Proof.
  intros Hc.
  assert (Hr : huggingface_weights_repo w c = Returned (repo, c)).
  { unfold huggingface_weights_repo. rewrite Hc. reflexivity. }
  unfold _local_weight_path, bind. rewrite Hr. repeat split.
  - intros -> ->. reflexivity.
  - intros -> -> ->. reflexivity.
  - intros -> ->. reflexivity.
Qed.

Lemma local_weight_path_raises_witness :
  let c := accessed sharded_world sharded_config in
  _local_weight_path sharded_world "model-00001.safetensors" c
    = Returned (Some "/cwd/model-00001.safetensors", c).
Proof.
  cbv zeta.
  apply (proj1 (local_weight_path_raises sharded_world "model-00001.safetensors"
                  (accessed sharded_world sharded_config) _ eq_refl));
    reflexivity.
Defined.

(** ** What the final check establishes *)

(** The entry can be located: [_local_weight_path] finds it, or the
    repository is online and has it. *)
Definition locatable (w : World) (c : Config) (q : string) : Prop :=
  found_locally w c q \/
  (repo_type (weights_repo w c) = Some online /\
   file_exists w (weights_repo w c) q = true).

Lemma validate_path_returns (w : World) (c : Config) (q : string) (u : unit)
    (c1 : Config) :
  validate_path w (weights_repo w c) q (accessed w c) = Returned (u, c1) ->
  c1 = accessed w c /\ locatable w c q.
Proof.
  unfold validate_path, bind.
  destruct (_local_weight_path w q (accessed w c)) as [[r c2]|x] eqn:El;
    [|discriminate].
  destruct (found r) eqn:Ef.
  - unfold ret. intros H. injection H as _ <-. split.
    + eapply found_keeps_state; eassumption.
    + left. now exists r, c2.
  - revert El. unfold _local_weight_path, bind. rewrite repo_read_again.
    destruct (path_exists w q && is_file w q).
    { unfold ret. intros H. injection H as <- <-.
      destruct (repo_type (weights_repo w c)) as [[|]|] eqn:Et; try discriminate.
      destruct (file_exists w _ q) eqn:Ex; [|discriminate].
      intros H. injection H as _ <-. split; [reflexivity | now right]. }
    destruct (repo_type (weights_repo w c)) as [[|]|] eqn:Et; try discriminate.
    destruct (try_to_load_from_cache w _ q _) as [s| |]; [|discriminate|].
    + destruct (PyStr.truthy s); unfold ret; intros H; injection H as <- <-;
        (destruct (file_exists w _ q) eqn:Ex; [|discriminate]);
        intros H; injection H as _ <-; (split; [reflexivity | now right]).
    + unfold ret. intros H. injection H as <- <-.
      destruct (file_exists w _ q) eqn:Ex; [|discriminate].
      intros H. injection H as _ <-. split; [reflexivity | now right].
Qed.

Lemma validate_paths_returns (w : World) (c : Config) (paths : list string)
    (u : unit) (c1 : Config) :
  validate_paths w (weights_repo w c) paths (accessed w c) = Returned (u, c1) ->
  c1 = accessed w c /\ Forall (locatable w c) paths.
Proof.
  induction paths as [|q qs IH]; cbn [validate_paths].
  - unfold ret. intros H. injection H as _ <-. split; [reflexivity | constructor].
  - unfold bind at 1.
    destruct (validate_path w (weights_repo w c) q (accessed w c))
      as [[u1 c2]|x] eqn:E; [|discriminate].
    apply validate_path_returns in E. destruct E as [-> Hq].
    intros H. apply IH in H. destruct H as [-> Hqs].
    split; [reflexivity | now constructor].
Qed.

Lemma final_validation_locatable_core (w : World) (c c' : Config) (u : unit) :
  _validate_final_architecture_model_path_weight_path w c = Returned (u, c') ->
  weight_path c <> [] /\ Forall (locatable w c) (weight_path c) /\
  c' = accessed w c.
Proof.
  intros H.
  assert (Hne : weight_path c <> []).
  { revert H. unfold _validate_final_architecture_model_path_weight_path, bind, get.
    destruct (weight_path c); [discriminate | discriminate]. }
  rewrite (final_validation_start w c Hne) in H.
  apply validate_paths_returns in H. destruct H as [-> Hall]. auto.
Qed.

(** X18: when the final check returns, the weight path is not empty,
    every entry can be located (it is found locally, or the repository
    is online and has it), and the configuration is the one the check
    started from, but for the repository being read. *)
Theorem final_validation_locatable (w : World) (c c' : Config) (u : unit) :
  _validate_final_architecture_model_path_weight_path w c = Returned (u, c') ->
  weight_path c <> [] /\ Forall (locatable w c) (weight_path c) /\
  c' = accessed w c.
Proof. exact (final_validation_locatable_core w c c' u). Qed.

Lemma final_validation_locatable_witness :
  weight_path
    (Fixtures.config "acme/llama-x" ["model-00001.safetensors"] (Some bfloat16)
       [Fixtures.gpu0] : Config) <> [] /\
  Forall (locatable indexed_world
            (Fixtures.config "acme/llama-x" ["model-00001.safetensors"]
               (Some bfloat16) [Fixtures.gpu0]))
    ["model-00001.safetensors"] /\
  accessed indexed_world
    (Fixtures.config "acme/llama-x" ["model-00001.safetensors"] (Some bfloat16)
       [Fixtures.gpu0]) =
  accessed indexed_world
    (Fixtures.config "acme/llama-x" ["model-00001.safetensors"] (Some bfloat16)
       [Fixtures.gpu0]).
Proof.
  exact (final_validation_locatable indexed_world
           (Fixtures.config "acme/llama-x" ["model-00001.safetensors"]
              (Some bfloat16) [Fixtures.gpu0]) _ tt eq_refl).
Defined.

(** X19: the second stage never changes the encoding or the model path,
    and never changes a weight path that was given. *)
Theorem second_stage_keeps_given_fields
    (w : World) (se : list (SupportedEncoding * list KVCacheStrategy))
    (f : WeightsFormat) (c c' : Config) (u : unit) :
  validate_and_resolve_with_set_quantization_encoding w se f c = Returned (u, c') ->
  quantization_encoding c' = quantization_encoding c /\
  model_path c' = model_path c /\
  (weight_path c <> [] -> weight_path c' = weight_path c).
Proof.
  unfold validate_and_resolve_with_set_quantization_encoding.
  unfold bind at 1.
  destruct (_validate_quantization_encoding_device_compatibility w _ c)
    as [[u1 ca]|x] eqn:E1; [|discriminate].
  apply device_compatibility_returns in E1. destruct E1 as [-> Hq].
  unfold bind at 1.
  destruct (_finalize_encoding_config w c) as [[u2 cb]|x] eqn:E2; [|discriminate].
  apply finalize_encoding_core in E2. destruct E2 as (Ew2 & Eq2 & Em2).
  unfold bind at 1.
  destruct (_resolve_weight_path w f cb) as [[u3 cc]|x] eqn:E3; [|discriminate].
  pose proof (resolve_weight_path_returns w f cb cc u3 E3) as (_ & Eq3 & Em3).
  unfold bind at 1.
  destruct (_resolve_kv_cache_strategy se cc) as [[u4 cd]|x] eqn:E4; [|discriminate].
  apply kv_cache_strategy_core in E4. destruct E4 as (Ew4 & Eq4 & Em4).
  intros E5. apply final_validation_core in E5. destruct E5 as (Ew5 & Eq5 & Em5).
  repeat split; try congruence.
  intros Hne.
  assert (Hcc : weight_path cc = weight_path cb).
  { destruct (quantization_encoding cb) as [enc|] eqn:Eqb; [|congruence].
    rewrite <- Ew2 in Hne.
    rewrite (proj1 (resolve_weight_path_choice_core w f cb enc Eqb) Hne) in E3.
    now injection E3 as _ <-. }
  congruence.
Qed.

Lemma second_stage_keeps_given_fields_witness :
  exists c',
    validate_and_resolve_with_set_quantization_encoding indexed_world
      [(bfloat16, [PAGED])] safetensors
      (Fixtures.config "acme/llama-x" ["model-00001.safetensors"]
         (Some bfloat16) [Fixtures.gpu0]) = Returned (tt, c') /\
    quantization_encoding c' = Some bfloat16 /\
    model_path c' = "acme/llama-x" /\
    weight_path c' = ["model-00001.safetensors"].
Proof.
  eexists. split; [cbv; reflexivity|].
  destruct (second_stage_keeps_given_fields indexed_world
              [(bfloat16, [PAGED])] safetensors
              (Fixtures.config "acme/llama-x" ["model-00001.safetensors"]
                 (Some bfloat16) [Fixtures.gpu0]) _ tt eq_refl)
    as (H1 & H2 & H3).
  split; [exact H1|]. split; [exact H2|]. apply H3. discriminate.
Defined.

(** * [MAXModelConfig.weights_size] *)

(** [os.path.getsize] and [HuggingFaceRepo.size_of] ([None] when the hub
    gives no size). *)
Record Sizes : Type := {
  getsize : string -> Z;
  size_of : HuggingFaceRepo -> string -> option Z
}.

(** What [weights_size] raises: what [_local_weight_path] raised, or one
    of its own three errors, with the values of their messages. *)
Inductive SizeExc : Type :=
  | FromLocalWeightPath (x : Exc)
  | WeightFileNotInLocalRepository (path repo : string)
  | FailedToGetSize (path repo : string)
  | UnexpectedRepositoryTypeForSize.

Definition size_exc_kind (e : SizeExc) : ExcKind :=
  match e with
  | FromLocalWeightPath x => kind x
  | WeightFileNotInLocalRepository _ _ => FileNotFoundError
  | FailedToGetSize _ _ => ValueError
  | UnexpectedRepositoryTypeForSize => RuntimeError
  end.

Inductive SizeOutcome : Type :=
  | SizeReturned (total : Z) (c : Config)
  | SizeRaised (e : SizeExc).

(** The loop of [weights_size], with [total_weights_size]. *)
Fixpoint sum_weights (sz : Sizes) (w : World) (repo : HuggingFaceRepo)
    (paths : list string) (total_weights_size : Z) (c : Config) : SizeOutcome :=
  match paths with
  | [] => SizeReturned total_weights_size c
  | file_path :: rest =>
      match _local_weight_path w file_path c with
      | Raised x => SizeRaised (FromLocalWeightPath x)
      | Returned (local_file_location, c1) =>
          let not_local :=
            match repo_type repo with
            | Some local =>
                SizeRaised (WeightFileNotInLocalRepository file_path (repo_id repo))
            | Some online =>
                match size_of sz repo file_path with
                | None => SizeRaised (FailedToGetSize file_path (repo_id repo))
                | Some next_size =>
                    sum_weights sz w repo rest (total_weights_size + next_size) c1
                end
            | None => SizeRaised UnexpectedRepositoryTypeForSize
            end in
          match local_file_location with
          | Some l =>
              if PyStr.truthy l then
                sum_weights sz w repo rest (total_weights_size + getsize sz l) c1
              else not_local
          | None => not_local
          end
      end
  end.

Definition weights_size (sz : Sizes) (w : World) (c : Config) : SizeOutcome :=
  match huggingface_weights_repo w c with
  | Raised x => SizeRaised (FromLocalWeightPath x)
  | Returned (repo, c1) => sum_weights sz w repo (weight_path c) 0 c1
  end.

(** The size that counts for one entry: that of the local file when
    [_local_weight_path] finds one, the size the hub gives for an online
    repository otherwise. *)
Definition entry_size (sz : Sizes) (w : World) (c : Config) (q : string)
    : option Z :=
  let remote :=
    match repo_type (weights_repo w c) with
    | Some online => size_of sz (weights_repo w c) q
    | _ => None
    end in
  match _local_weight_path w q (accessed w c) with
  | Returned (Some l, _) => if PyStr.truthy l then Some (getsize sz l) else remote
  | Returned (None, _) => remote
  | Raised _ => None
  end.

Definition sum_sizes (l : list (option Z)) : Z :=
  fold_right (fun o acc => match o with Some n => n + acc | None => acc end)%Z 0%Z l.

(** When [_local_weight_path] returns for a repository that is local or
    online, the configuration is as it was. *)
Lemma local_weight_path_state (w : World) (c : Config) (q : string)
    (r : option string) (c1 : Config) :
  _local_weight_path w q (accessed w c) = Returned (r, c1) ->
  repo_type (weights_repo w c) <> None -> c1 = accessed w c.
Proof.
  unfold _local_weight_path, bind. rewrite repo_read_again.
  destruct (path_exists w q && is_file w q).
  - unfold ret. intros H _. now injection H as _ <-.
  - destruct (repo_type (weights_repo w c)) as [[|]|].
    + destruct (try_to_load_from_cache w _ q _) as [s| |];
        [destruct (PyStr.truthy s)|discriminate|];
        unfold ret; intros H _; now injection H as _ <-.
    + unfold ret. intros H _. now injection H as _ <-.
    + intros _ H. contradiction.
Qed.

Lemma sum_weights_returns (sz : Sizes) (w : World) (c : Config)
    (paths : list string) :
  forall t total c1,
    sum_weights sz w (weights_repo w c) paths t (accessed w c)
      = SizeReturned total c1 ->
    c1 = accessed w c /\
    total = (t + sum_sizes (map (entry_size sz w c) paths))%Z /\
    Forall (fun q => entry_size sz w c q <> None) paths.
Proof.
  induction paths as [|q qs IH]; intros t total c1; cbn [sum_weights map].
  - intros H. injection H as <- <-. cbn. split; [reflexivity|].
    split; [lia | constructor].
  - destruct (_local_weight_path w q (accessed w c)) as [[r c2]|x] eqn:El;
      [|discriminate].
    set (remote := match repo_type (weights_repo w c) with
                   | Some online => size_of sz (weights_repo w c) q
                   | _ => None
                   end).
    assert (Hes : entry_size sz w c q =
                  match r with
                  | Some l => if PyStr.truthy l then Some (getsize sz l) else remote
                  | None => remote
                  end).
    { unfold entry_size. rewrite El. reflexivity. }
    assert (Hremote :
      match repo_type (weights_repo w c) with
      | Some local =>
          SizeRaised (WeightFileNotInLocalRepository q (repo_id (weights_repo w c)))
      | Some online =>
          match size_of sz (weights_repo w c) q with
          | Some next_size =>
              sum_weights sz w (weights_repo w c) qs (t + next_size) c2
          | None => SizeRaised (FailedToGetSize q (repo_id (weights_repo w c)))
          end
      | None => SizeRaised UnexpectedRepositoryTypeForSize
      end = SizeReturned total c1 ->
      exists n, remote = Some n /\ c1 = accessed w c /\
        total = (t + n + sum_sizes (map (entry_size sz w c) qs))%Z /\
        Forall (fun q0 => entry_size sz w c q0 <> None) qs).
    { subst remote.
      destruct (repo_type (weights_repo w c)) as [[|]|] eqn:Et; try discriminate.
      destruct (size_of sz (weights_repo w c) q) as [n|]; [|discriminate].
      assert (c2 = accessed w c) as ->.
      { eapply local_weight_path_state; [eassumption|]. rewrite Et. discriminate. }
      intros H. apply IH in H. destruct H as (-> & -> & Hall).
      exists n. repeat split; assumption. }
    destruct r as [l|]; [destruct (PyStr.truthy l) eqn:Etr|].
    + assert (c2 = accessed w c) as ->.
      { eapply found_keeps_state; [eassumption|]. exact Etr. }
      intros H. apply IH in H. destruct H as (-> & -> & Hall).
      split; [reflexivity|]. split.
      * cbn [sum_sizes fold_right]. rewrite Hes. fold (sum_sizes (map (entry_size sz w c) qs)). lia.
      * constructor; [rewrite Hes; discriminate | assumption].
    + intros H. apply Hremote in H. destruct H as (n & Hn & -> & -> & Hall).
      split; [reflexivity|]. split.
      * cbn [sum_sizes fold_right]. rewrite Hes, Hn. fold (sum_sizes (map (entry_size sz w c) qs)). lia.
      * constructor; [rewrite Hes, Hn; discriminate | assumption].
    + intros H. apply Hremote in H. destruct H as (n & Hn & -> & -> & Hall).
      split; [reflexivity|]. split.
      * cbn [sum_sizes fold_right]. rewrite Hes, Hn. fold (sum_sizes (map (entry_size sz w c) qs)). lia.
      * constructor; [rewrite Hes, Hn; discriminate | assumption].
Qed.

Lemma weights_size_is_sum_core
    (sz : Sizes) (w : World) (c : Config) (total : Z) (c' : Config) :
  weights_size sz w c = SizeReturned total c' ->
  total = sum_sizes (map (entry_size sz w c) (weight_path c)) /\
  Forall (fun q => entry_size sz w c q <> None) (weight_path c) /\
  c' = accessed w c.
Proof.
  unfold weights_size. rewrite huggingface_weights_repo_eq.
  intros H. apply sum_weights_returns in H. destruct H as (-> & -> & Hall).
  split; [lia|]. split; [assumption | reflexivity].
Qed.

(** X20: when [weights_size] returns, the total is the sum over the
    weight path of the size that counts for each entry (the local file's
    when there is one, the hub's otherwise), every entry has such a size,
    and the configuration is as it was, but for the repository being
    read. *)
Theorem weights_size_is_sum
    (sz : Sizes) (w : World) (c : Config) (total : Z) (c' : Config) :
  weights_size sz w c = SizeReturned total c' ->
  total = sum_sizes (map (entry_size sz w c) (weight_path c)) /\
  Forall (fun q => entry_size sz w c q <> None) (weight_path c) /\
  c' = accessed w c.
Proof. exact (weights_size_is_sum_core sz w c total c'). Qed.

Definition sizes_fixture : Sizes :=
  {| getsize := fun p => Z.of_nat (String.length p);
     size_of := fun _ p =>
       if PyStr.suffix p =? ".safetensors" then Some 4096%Z else None |}.

Lemma weights_size_is_sum_witness :
  exists c',
    weights_size sizes_fixture sharded_world sharded_config
      = SizeReturned (28 + 4096) c' /\
    (28 + 4096 =
     sum_sizes (map (entry_size sizes_fixture sharded_world sharded_config)
                  (weight_path sharded_config)))%Z.
Proof.
  eexists. split; [cbv; reflexivity|].
  exact (proj1 (weights_size_is_sum sizes_fixture sharded_world sharded_config
                  _ _ eq_refl)).
Defined.

Lemma sum_weights_found (sz : Sizes) (w : World) (c : Config)
    (paths : list string) :
  Forall (found_locally w c) paths ->
  forall t, exists total,
    sum_weights sz w (weights_repo w c) paths t (accessed w c)
      = SizeReturned total (accessed w c).
Proof.
  induction 1 as [|q qs Hq _ IH]; intros t; cbn [sum_weights].
  - now exists t.
  - destruct Hq as (r & c1 & Hl & Hf). rewrite Hl.
    rewrite (found_keeps_state w c q r c1 Hl Hf).
    destruct r as [l|]; [|discriminate]. cbn in Hf. rewrite Hf. apply IH.
Qed.

Lemma local_entry_size_found (sz : Sizes) (w : World) (c : Config) (q : string) :
  repo_type (weights_repo w c) = Some local ->
  entry_size sz w c q <> None -> found_locally w c q.
Proof.
  intros Ht. unfold entry_size, found_locally. rewrite Ht.
  destruct (_local_weight_path w q (accessed w c)) as [[[l|] c1]|x];
    try contradiction.
  destruct (PyStr.truthy l) eqn:E; [|contradiction].
  intros _. exists (Some l), c1. split; [reflexivity | exact E].
Qed.

(** X21: for a local repository and a weight path that is not empty,
    [weights_size] returns exactly when the final check of the weight
    paths returns: both need every file to be found locally. *)
Theorem weights_size_agrees_with_final_check
    (sz : Sizes) (w : World) (c : Config) :
  repo_type (weights_repo w c) = Some local -> weight_path c <> [] ->
  ((exists total c', weights_size sz w c = SizeReturned total c') <->
   (exists c', _validate_final_architecture_model_path_weight_path w c
               = Returned (tt, c'))).
Proof.
  intros Ht Hne. split.
  - intros (total & c' & H). apply weights_size_is_sum_core in H.
    destruct H as (_ & Hall & _).
    assert (Hfound : Forall (found_locally w c) (weight_path c)).
    { eapply Forall_impl; [|exact Hall].
      intros q. now apply local_entry_size_found. }
    exists (accessed w c). rewrite (final_validation_start w c Hne).
    rewrite <- (app_nil_r (weight_path c)).
    rewrite (validate_paths_found w c _ [] Hfound). reflexivity.
  - intros (c' & H). apply final_validation_locatable_core in H.
    destruct H as (_ & Hall & _).
    assert (Hfound : Forall (found_locally w c) (weight_path c)).
    { eapply Forall_impl; [|exact Hall].
      intros q [Hf | [Ho _]]; [exact Hf | congruence]. }
    unfold weights_size. rewrite huggingface_weights_repo_eq.
    destruct (sum_weights_found sz w c _ Hfound 0%Z) as [total Hs].
    now exists total, (accessed w c).
Qed.

Definition local_repo_world : World :=
  {| devices_exist := devices_exist local_weights_world;
     scan_available_devices := scan_available_devices local_weights_world;
     is_file := is_file local_weights_world;
     path_exists := path_exists local_weights_world;
     path_resolve := path_resolve local_weights_world;
     hub_file_exists := hub_file_exists local_weights_world;
     repo_exists_with_retry := repo_exists_with_retry local_weights_world;
     try_to_load_from_cache := try_to_load_from_cache local_weights_world;
     from_pretrained := from_pretrained local_weights_world;
     weights_format := weights_format local_weights_world;
     parse_from_file_name := parse_from_file_name local_weights_world;
     supported_on := supported_on local_weights_world;
     graph_encoding := graph_encoding local_weights_world;
     _ALTERNATE_ENCODINGS := _ALTERNATE_ENCODINGS local_weights_world;
     classify := fun _ => Some local;
     file_exists := file_exists local_weights_world;
     encoding_for_file := encoding_for_file local_weights_world;
     supported_encodings := supported_encodings local_weights_world;
     files_for_encoding := files_for_encoding local_weights_world |}.

Lemma weights_size_agrees_with_final_check_witness :
  exists c',
    _validate_final_architecture_model_path_weight_path local_repo_world
      (Fixtures.config "org/repo" ["org/repo/model.gguf"] (Some q4_k)
         [Fixtures.cpu0]) = Returned (tt, c').
Proof.
  apply (proj1 (weights_size_agrees_with_final_check sizes_fixture
                  local_repo_world
                  (Fixtures.config "org/repo" ["org/repo/model.gguf"] (Some q4_k)
                     [Fixtures.cpu0]) eq_refl ltac:(discriminate))).
  eexists _, _. cbv. reflexivity.
Defined.

(** * The layer plan of the Llama4 text model

    From [architectures/llama4/llama4.py]: what [Llama4DecoderLayer] and
    [Llama4TextModel] decide from the configuration.  The layers
    themselves and the tensors belong to the graph library and are left
    out. *)
Module Llama4.

(** The fields of [Llama4Config] (of [model_config], not among the
    sources) that the decisions read; a device is known by its name. *)
Record Llama4Config : Type := {
  no_rope_layers : list Z;
  no_rope_layer_interval : Z;
  moe_layers : list Z;
  devices : list string;
  num_hidden_layers : Z;
  return_n_logits : Z
}.

Inductive Built (A : Type) : Type :=
  | Ok (a : A)
  | ZeroDivisionError
  | ReturnNLogitsError (given : Z).
Arguments Ok {A} a.
Arguments ZeroDivisionError {A}.
Arguments ReturnNLogitsError {A} given.

(** What [Llama4DecoderLayer.__init__] settles for one layer. *)
Record DecoderLayer : Type := {
  use_rope : bool;
  is_moe_layer : bool;
  moe_device_index : option Z
}.

(** [x in l] for integers. *)
Definition mem (x : Z) (l : list Z) : bool := existsb (Z.eqb x) l.

Definition decoder_layer (config : Llama4Config) (layer_idx : Z)
    : Built DecoderLayer :=
  let rope :=
    match no_rope_layers config with
    | _ :: _ => Ok (mem layer_idx (no_rope_layers config))
    | [] =>
        if (no_rope_layer_interval config =? 0)%Z then ZeroDivisionError
        else Ok (((layer_idx + 1) mod no_rope_layer_interval config =? 0)%Z)
    end in
  match rope with
  | Ok r =>
      if mem layer_idx (moe_layers config) then
        match devices config with
        | [] => ZeroDivisionError
        | _ :: _ =>
            Ok {| use_rope := r;
                  is_moe_layer := true;
                  moe_device_index :=
                    Some (layer_idx mod Z.of_nat (length (devices config)))%Z |}
        end
      else Ok {| use_rope := r; is_moe_layer := false; moe_device_index := None |}
  | ZeroDivisionError => ZeroDivisionError
  | ReturnNLogitsError g => ReturnNLogitsError g
  end.

(** [range(n)]. *)
Definition range (n : Z) : list Z := map Z.of_nat (seq 0 (Z.to_nat n)).

Fixpoint build_layers (config : Llama4Config) (indices : list Z)
    : Built (list DecoderLayer) :=
  match indices with
  | [] => Ok []
  | layer_idx :: rest =>
      match decoder_layer config layer_idx with
      | Ok layer =>
          match build_layers config rest with
          | Ok layers => Ok (layer :: layers)
          | ZeroDivisionError => ZeroDivisionError
          | ReturnNLogitsError g => ReturnNLogitsError g
          end
      | ZeroDivisionError => ZeroDivisionError
      | ReturnNLogitsError g => ReturnNLogitsError g
      end
  end.

(** [Llama4TextModel.__init__]: the layers, then the check of
    [return_n_logits]. *)
Definition text_model (config : Llama4Config) : Built (list DecoderLayer) :=
  match build_layers config (range (num_hidden_layers config)) with
  | Ok layers =>
      if (return_n_logits config =? 1)%Z || (return_n_logits config =? -1)%Z
      then Ok layers
      else ReturnNLogitsError (return_n_logits config)
  | ZeroDivisionError => ZeroDivisionError
  | ReturnNLogitsError g => ReturnNLogitsError g
  end.

(** What [Llama4TextModel.__call__] returns besides the logits of the
    last token. *)
Inductive Outputs : Type :=
  | LastTokenOnly
  | WithLastN (n : Z)
  | WithAllTokens.

Definition call_outputs (return_n_logits : Z) : Built Outputs :=
  if (1 <? return_n_logits)%Z then Ok (WithLastN return_n_logits)
  else if (return_n_logits =? -1)%Z then Ok WithAllTokens
  else if (return_n_logits =? 0)%Z || (return_n_logits <? -1)%Z
  then ReturnNLogitsError return_n_logits
  else Ok LastTokenOnly.

End Llama4.

(** X22: a decoder layer that was built is a mixture-of-experts layer
    exactly when its index is in [moe_layers]; it then has the device
    index [layer_idx % len(devices)], which is within the list of devices
    whatever the layer index; another layer has no device index. *)
Theorem llama4_moe_device_in_range
    (config : Llama4.Llama4Config) (layer_idx : Z) (layer : Llama4.DecoderLayer) :
  Llama4.decoder_layer config layer_idx = Llama4.Ok layer ->
  Llama4.is_moe_layer layer = Llama4.mem layer_idx (Llama4.moe_layers config) /\
  (Llama4.is_moe_layer layer = false -> Llama4.moe_device_index layer = None) /\
  (Llama4.is_moe_layer layer = true ->
   let i := (layer_idx mod Z.of_nat (length (Llama4.devices config)))%Z in
   Llama4.moe_device_index layer = Some i /\
   (0 <= i < Z.of_nat (length (Llama4.devices config)))%Z /\
   exists d, nth_error (Llama4.devices config) (Z.to_nat i) = Some d).
Proof.
  unfold Llama4.decoder_layer.
  destruct (match Llama4.no_rope_layers config with
            | [] => _ | _ :: _ => _ end) as [r| |g]; try discriminate.
  destruct (Llama4.mem layer_idx (Llama4.moe_layers config)).
  - destruct (Llama4.devices config) as [|d0 ds] eqn:Ed; [discriminate|].
    intros H. injection H as <-. cbn [Llama4.is_moe_layer Llama4.moe_device_index].
    split; [reflexivity|]. split; [discriminate|]. intros _.
    set (n := Z.of_nat (length (d0 :: ds))).
    assert (Hn : (0 < n)%Z) by (subst n; cbn [length]; lia).
    pose proof (Z.mod_pos_bound layer_idx n Hn) as Hb. cbv zeta.
    split; [reflexivity|]. split; [exact Hb|].
    destruct (nth_error (d0 :: ds) (Z.to_nat (layer_idx mod n))) as [d|] eqn:En.
    + now exists d.
    + apply nth_error_None in En. subst n. lia.
  - intros H. injection H as <-. cbn [Llama4.is_moe_layer Llama4.moe_device_index].
    split; [reflexivity|]. split; [reflexivity | discriminate].
Qed.

Definition two_gpus : Llama4.Llama4Config :=
  {| Llama4.no_rope_layers := [];
     Llama4.no_rope_layer_interval := 4;
     Llama4.moe_layers := [1; 3; 5; 7]%Z;
     Llama4.devices := ["gpu:0"; "gpu:1"];
     Llama4.num_hidden_layers := 8;
     Llama4.return_n_logits := 1 |}.

Lemma llama4_moe_device_in_range_witness :
  exists layer,
    Llama4.decoder_layer two_gpus 5 = Llama4.Ok layer /\
    Llama4.is_moe_layer layer = true /\
    Llama4.moe_device_index layer = Some 1%Z.
Proof.
  eexists. split; [reflexivity|]. split; [reflexivity|].
  exact (proj1 (proj2 (proj2 (llama4_moe_device_in_range two_gpus 5 _ eq_refl))
                  eq_refl)).
Defined.

Lemma build_layers_rope (config : Llama4.Llama4Config) (n : Z)
    (indices : list Z) :
  Llama4.no_rope_layers config = [] ->
  Llama4.no_rope_layer_interval config = n ->
  forall layers,
    Llama4.build_layers config indices = Llama4.Ok layers ->
    map Llama4.use_rope layers =
      map (fun i => ((i + 1) mod n =? 0)%Z) indices.
Proof.
  intros Hno Hn. induction indices as [|i rest IH]; intros layers;
    cbn [Llama4.build_layers].
  - intros H. injection H as <-. reflexivity.
  - destruct (Llama4.decoder_layer config i) as [layer| |g] eqn:E;
      try discriminate.
    destruct (Llama4.build_layers config rest) as [ls| |g]; try discriminate.
    intros H. injection H as <-. cbn [map]. rewrite (IH ls eq_refl). f_equal.
    revert E. unfold Llama4.decoder_layer. rewrite Hno, Hn.
    destruct (n =? 0)%Z; [discriminate|].
    destruct (Llama4.mem i (Llama4.moe_layers config));
      [destruct (Llama4.devices config); [discriminate|]|];
      intros H; injection H as <-; reflexivity.
Qed.

Lemma count_multiples (n : Z) (N : nat) :
  (0 < n)%Z ->
  Z.of_nat (length (filter (fun i => ((i + 1) mod n =? 0)%Z)
                      (map Z.of_nat (seq 0 N)))) = (Z.of_nat N / n)%Z.
Proof.
  intros Hn. induction N as [|N IH].
  - cbn [seq map filter length]. change (Z.of_nat 0) with 0%Z.
    symmetry. apply Z.div_0_l. lia.
  - rewrite seq_S, map_app, filter_app, length_app, Nat2Z.inj_add, IH.
    cbn [plus map filter].
    replace (Z.of_nat (S N)) with (Z.of_nat N + 1)%Z by lia.
    destruct ((Z.of_nat N + 1) mod n =? 0)%Z eqn:E; cbn [length].
    + apply Z.eqb_eq in E. Z.div_mod_to_equations. nia.
    + apply Z.eqb_neq in E. Z.div_mod_to_equations. nia.
Qed.

(** X23: when no list of rope layers is given and the interval [n] is
    positive, a text model that was built has one layer for each index
    below [num_hidden_layers], and exactly [num_hidden_layers / n] of
    them use rope. *)
Theorem llama4_rope_layer_count
    (config : Llama4.Llama4Config) (layers : list Llama4.DecoderLayer) :
  Llama4.no_rope_layers config = [] ->
  (0 < Llama4.no_rope_layer_interval config)%Z ->
  (0 <= Llama4.num_hidden_layers config)%Z ->
  Llama4.text_model config = Llama4.Ok layers ->
  Z.of_nat (length layers) = Llama4.num_hidden_layers config /\
  Z.of_nat (length (filter Llama4.use_rope layers)) =
    (Llama4.num_hidden_layers config / Llama4.no_rope_layer_interval config)%Z.
Proof.
  intros Hno Hn HN. unfold Llama4.text_model.
  destruct (Llama4.build_layers config _) as [ls| |g] eqn:E; try discriminate.
  destruct (_ || _); [|discriminate].
  intros H. injection H as <-.
  pose proof (build_layers_rope config _ _ Hno eq_refl ls E) as Hmap.
  assert (Hlen : length ls = Z.to_nat (Llama4.num_hidden_layers config)).
  { apply (f_equal (@length bool)) in Hmap.
    rewrite !length_map in Hmap. unfold Llama4.range in Hmap.
    now rewrite length_map, length_seq in Hmap. }
  split; [lia|].
  assert (Hf : length (filter Llama4.use_rope ls) =
               length (filter (fun b : bool => b) (map Llama4.use_rope ls))).
  { clear. induction ls as [|l ls IH]; [reflexivity|].
    cbn. destruct (Llama4.use_rope l); cbn; now rewrite IH. }
  rewrite Hf, Hmap.
  assert (Hg : forall (g : Z -> bool) (l : list Z),
             length (filter (fun b : bool => b) (map g l)) = length (filter g l)).
  { intros g l. induction l as [|x l IH]; [reflexivity|].
    cbn. destruct (g x); cbn; now rewrite IH. }
  rewrite Hg. unfold Llama4.range.
  rewrite (count_multiples _ _ Hn). now rewrite Z2Nat.id.
Qed.

Lemma llama4_rope_layer_count_witness :
  exists layers,
    Llama4.text_model two_gpus = Llama4.Ok layers /\
    Z.of_nat (length layers) = 8%Z /\
    Z.of_nat (length (filter Llama4.use_rope layers)) = (8 / 4)%Z.
Proof.
  eexists. split; [reflexivity|].
  refine (llama4_rope_layer_count two_gpus _ eq_refl _ _ eq_refl);
    cbn; lia.
Defined.

(** X24: a text model that was built has [return_n_logits] equal to [1]
    or [-1]; its call then never raises for [return_n_logits], returns
    the logits of the last token alone for [1] and those of all tokens as
    well for [-1], and never takes the branch for the last [n] tokens. *)
Theorem llama4_call_after_init
    (config : Llama4.Llama4Config) (layers : list Llama4.DecoderLayer) :
  Llama4.text_model config = Llama4.Ok layers ->
  (Llama4.return_n_logits config = 1%Z /\
   Llama4.call_outputs (Llama4.return_n_logits config)
     = Llama4.Ok Llama4.LastTokenOnly) \/
  (Llama4.return_n_logits config = (-1)%Z /\
   Llama4.call_outputs (Llama4.return_n_logits config)
     = Llama4.Ok Llama4.WithAllTokens).
Proof.
  unfold Llama4.text_model.
  destruct (Llama4.build_layers config _) as [ls| |g]; try discriminate.
  destruct (Llama4.return_n_logits config =? 1)%Z eqn:E1.
  - apply Z.eqb_eq in E1. intros _. left. rewrite E1. split; reflexivity.
  - destruct (Llama4.return_n_logits config =? -1)%Z eqn:E2; [|discriminate].
    apply Z.eqb_eq in E2. intros _. right. rewrite E2. split; reflexivity.
Qed.

Lemma llama4_call_after_init_witness :
  Llama4.call_outputs (Llama4.return_n_logits two_gpus)
    = Llama4.Ok Llama4.LastTokenOnly.
Proof.
  destruct (llama4_call_after_init two_gpus _ eq_refl) as [[_ H] | [H _]].
  - exact H.
  - discriminate H.
Defined.

(** * What the second stage establishes *)

Lemma locatable_accessed (w : World) (c : Config) (q : string) :
  locatable w c q -> locatable w (accessed w c) q.
Proof.
  unfold locatable, found_locally.
  destruct (accessed_twice w c) as [-> ->]. tauto.
Qed.

(** X25: when [validate_and_resolve_with_set_quantization_encoding]
    returns, the weight path is not empty, the encoding is set, every
    weight path can be located (found locally, or present in the online
    repository), and the cache strategy is one of those the caller lists
    for the encoding, when it lists any. *)
Theorem second_stage_establishes
    (w : World) (se : list (SupportedEncoding * list KVCacheStrategy))
    (f : WeightsFormat) (c c' : Config) (u : unit) :
  validate_and_resolve_with_set_quantization_encoding w se f c = Returned (u, c') ->
  weight_path c' <> [] /\
  Forall (locatable w c') (weight_path c') /\
  exists enc,
    quantization_encoding c' = Some enc /\
    (dict_get SupportedEncoding_eqb enc se <> [] ->
     In (cache_strategy (_kv_cache_config c'))
        (dict_get SupportedEncoding_eqb enc se)).
Proof.
  unfold validate_and_resolve_with_set_quantization_encoding.
  unfold bind at 1.
  destruct (_validate_quantization_encoding_device_compatibility w _ c)
    as [[u1 ca]|x] eqn:E1; [|discriminate].
  apply device_compatibility_returns in E1. destruct E1 as [-> Hq].
  unfold bind at 1.
  destruct (_finalize_encoding_config w c) as [[u2 cb]|x] eqn:E2; [|discriminate].
  apply finalize_encoding_core in E2. destruct E2 as (_ & Eq2 & _).
  unfold bind at 1.
  destruct (_resolve_weight_path w f cb) as [[u3 cc]|x] eqn:E3; [|discriminate].
  apply resolve_weight_path_returns in E3. destruct E3 as (_ & Eq3 & _).
  unfold bind at 1.
  destruct (_resolve_kv_cache_strategy se cc) as [[u4 cd]|x] eqn:E4; [|discriminate].
  pose proof (kv_cache_strategy_core se cc cd u4 E4) as (_ & Eq4 & _).
  intros E5. apply final_validation_locatable_core in E5.
  destruct E5 as (Hne & Hall & ->).
  destruct (accessed_fields w cd) as (Hw & Hqa & _ & _ & Hk & _).
  rewrite Hw, Hqa, Hk. split; [exact Hne|]. split.
  - eapply Forall_impl; [|exact Hall]. intros q. apply locatable_accessed.
  - destruct (quantization_encoding c) as [enc|] eqn:Eq; [|contradiction].
    exists enc. split; [congruence|]. intros Hl.
    eapply kv_strategy_supported_after_core; [|exact Hl|exact E4]. congruence.
Qed.

Lemma second_stage_establishes_witness :
  exists c',
    validate_and_resolve_with_set_quantization_encoding indexed_world
      [(bfloat16, [PAGED])] safetensors
      (Fixtures.config "acme/llama-x" [] (Some bfloat16) [Fixtures.gpu0])
      = Returned (tt, c') /\
    weight_path c' = ["model-00001.safetensors"] /\
    Forall (locatable indexed_world c') (weight_path c').
Proof.
  eexists. split; [cbv; reflexivity|]. split; [reflexivity|].
  exact (proj1 (proj2 (second_stage_establishes indexed_world
                         [(bfloat16, [PAGED])] safetensors
                         (Fixtures.config "acme/llama-x" [] (Some bfloat16)
                            [Fixtures.gpu0]) _ tt eq_refl))).
Defined.

(** * Repository prefixes through [resolve] *)

Lemma normalize_app (w : World) (model : string) (l1 l2 : list Entry) :
  forall rid,
    normalize w model rid (l1 ++ l2) =
      match normalize w model rid l1 with
      | Returned (ps, rid1) =>
          match normalize w model rid1 l2 with
          | Returned (qs, rid2) => Returned ((ps ++ qs)%list, rid2)
          | Raised x => Raised x
          end
      | Raised x => Raised x
      end.
Proof.
  induction l1 as [|e l1 IH]; intros rid; cbn [app normalize].
  - destruct (normalize w model rid l2) as [[qs r2]|x]; reflexivity.
  - destruct (normalize_entry w model rid e) as [[p r1]|x]; [|reflexivity].
    rewrite IH.
    destruct (normalize w model r1 l1) as [[ps r2]|x]; [|reflexivity].
    destruct (normalize w model r2 l2) as [[qs r3]|x]; reflexivity.
Qed.

(** When the loop returns at least one path, [resolve] returns, with the
    paths and the repository id of the loop. *)
Lemma resolve_after_loop (w : World) (c : MAXModelConfig WeightPathArg)
    (ps : list string) (rid : option string) :
  devices_exist w (device_specs c) = true ->
  normalize w (model_path c) (_weights_repo_id c) (as_list (weight_path c))
    = Returned (ps, rid) ->
  ps <> [] ->
  exists c', resolve w c = Returned c' /\ weight_path c' = ps /\
             _weights_repo_id c' = rid.
Proof.
  intros Hd Hn Hne. unfold resolve. rewrite Hd, Hn. cbn [negb].
  destruct ps as [|p ps]; [contradiction|]. cbn [length Nat.eqb].
  destruct rid as [r|]; [destruct (model_path c =? "")|];
    eexists; (split; [reflexivity|]); split; reflexivity.
Qed.

(** C5: in [resolve], for a weight path with devices that exist, an
    entry [org/repo/file] written in normal form, given as a string or as
    a path that is not a local file, with [ps] the paths and [rid1] the
    repository id the loop has reached before it: when [org/repo] is the
    non-empty [model_path], the path stored for the entry is [file] and
    the loop goes on with [_weights_repo_id] as it was; when [org/repo]
    is not [model_path] and the hub has [file] in [org/repo], the path
    stored is [file] and the loop goes on with [_weights_repo_id] set to
    [org/repo].  For a single entry and no repository id to start with,
    [weight_path] becomes [[file]], with [_weights_repo_id] unset in the
    first case and [org/repo] in the second. *)
Theorem resolve_repo_prefix
    (w : World) (c : MAXModelConfig WeightPathArg) (e : Entry)
    (org repo file : string) (pre post : list Entry) (ps : list string)
    (rid1 : option string) :
  let s := org ++ "/" ++ repo ++ "/" ++ file in
  PyStr.split "/" org = [org] -> PyStr.split "/" repo = [repo] ->
  PyStr.Path s = s -> PyStr.Path file = file ->
  e = EStr s \/ (e = EPath s /\ is_file w s = false) ->
  devices_exist w (device_specs c) = true ->
  as_list (weight_path c) = (pre ++ e :: post)%list ->
  normalize w (model_path c) (_weights_repo_id c) pre = Returned (ps, rid1) ->
  (model_path c <> "" -> org ++ "/" ++ repo = model_path c ->
   forall qs rid2,
     normalize w (model_path c) rid1 post = Returned (qs, rid2) ->
     exists c', resolve w c = Returned c' /\
                weight_path c' = (ps ++ file :: qs)%list /\
                _weights_repo_id c' = rid2) /\
  (org ++ "/" ++ repo <> model_path c ->
   hub_file_exists w (org ++ "/" ++ repo) file = true ->
   forall qs rid2,
     normalize w (model_path c) (Some (org ++ "/" ++ repo)) post
       = Returned (qs, rid2) ->
     exists c', resolve w c = Returned c' /\
                weight_path c' = (ps ++ file :: qs)%list /\
                _weights_repo_id c' = rid2).
Proof.
  intros s Ho Hr Hns Hnf He Hd Hl Hpre.
  destruct (normalize_entry_repo_prefix w (model_path c) rid1 e org repo file
              Ho Hr Hns Hnf He) as [Hsame Hother].
  assert (Hloop : forall r qs rid2,
            normalize_entry w (model_path c) rid1 e = Returned (file, r) ->
            normalize w (model_path c) r post = Returned (qs, rid2) ->
            exists c', resolve w c = Returned c' /\
                       weight_path c' = (ps ++ file :: qs)%list /\
                       _weights_repo_id c' = rid2).
  { intros r qs rid2 Hent Hpost. apply resolve_after_loop.
    - exact Hd.
    - rewrite Hl, normalize_app, Hpre. cbn [normalize].
      rewrite Hent, Hpost. reflexivity.
    - destruct ps; discriminate. }
  split.
  - intros Hm Heq qs rid2 Hpost. apply (Hloop rid1); auto.
  - intros Hne Hhub qs rid2 Hpost.
    apply (Hloop (Some (org ++ "/" ++ repo))); auto.
Qed.

Lemma resolve_repo_prefix_witness :
  (exists c',
     resolve hub_world
       (Fixtures.config "org/repo" (ArgList [EStr "org/repo/file.safetensors"])
          None [Fixtures.cpu0]) = Returned c' /\
     weight_path c' = ["file.safetensors"] /\ _weights_repo_id c' = None) /\
  (exists c',
     resolve hub_world
       (Fixtures.config "org/repo"
          (ArgList [EPath "local/llama-q4_k.gguf";
                    EPath "org2/repo2/file.safetensors"])
          None [Fixtures.cpu0]) = Returned c' /\
     weight_path c' = ["local/llama-q4_k.gguf"; "file.safetensors"] /\
     _weights_repo_id c' = Some "org2/repo2").
Proof.
  split.
  - apply (proj1 (resolve_repo_prefix hub_world
                    (Fixtures.config "org/repo"
                       (ArgList [EStr "org/repo/file.safetensors"]) None
                       [Fixtures.cpu0])
                    (EStr "org/repo/file.safetensors")
                    "org" "repo" "file.safetensors" [] [] [] None
                    eq_refl eq_refl eq_refl eq_refl (or_introl eq_refl)
                    eq_refl eq_refl eq_refl)).
    + discriminate.
    + reflexivity.
    + reflexivity.
  - apply (proj2 (resolve_repo_prefix hub_world
                    (Fixtures.config "org/repo"
                       (ArgList [EPath "local/llama-q4_k.gguf";
                                 EPath "org2/repo2/file.safetensors"])
                       None [Fixtures.cpu0])
                    (EPath "org2/repo2/file.safetensors")
                    "org2" "repo2" "file.safetensors"
                    [EPath "local/llama-q4_k.gguf"] []
                    ["local/llama-q4_k.gguf"] None
                    eq_refl eq_refl eq_refl eq_refl
                    (or_intror (conj eq_refl eq_refl))
                    eq_refl eq_refl eq_refl)).
    + discriminate.
    + reflexivity.
    + reflexivity.
Defined.

(** * The model path at the end of the resolution *)












